(** * whatsappService.ts: the outbound message delivery core

    A shallow embedding of [src/lib/whatsappService.ts]: the phone and
    message normalizer, the connection manager over the module-level
    [clientState], the two delivery backends, and the batch dispatcher.

    JavaScript strings are modelled as [string]; the two regular
    expressions of the module only look at ASCII characters.  Numbers that
    the code uses as counters, sizes and delays are modelled as [Z], so a
    batch size or a retry bound is a whole number.  Console output is not
    modelled.  A thrown value and a rejected promise are the same thing
    here, as they are for the [await]ing code. *)

From Stdlib Require Import String Ascii List ZArith Lia Bool DecimalString.
Import ListNotations.
Open Scope string_scope.

(* ===================================================================== *)
(** ** JavaScript values and completions *)
(* ===================================================================== *)

Module Js.

(** A thrown value: an [Error] object with its [message], or anything
    else (for which [instanceof Error] is false). *)
Inductive Thrown : Type :=
| ErrorObj (message : string)
| NonError.

(** How an evaluation (or an awaited promise) completes. *)
Inductive Completion (A : Type) : Type :=
| Normal (a : A)
| Throw (e : Thrown).
Arguments Normal {A} a.
Arguments Throw {A} e.

(** [error instanceof Error ? error.message : fallback] *)
Definition message_or (fallback : string) (e : Thrown) : string :=
  match e with
  | ErrorObj m => m
  | NonError => fallback
  end.

(** [x || d] on an optional string: [undefined] and [""] are falsy. *)
Definition or_else (x : option string) (d : string) : string :=
  match x with
  | Some (String c r) => String c r
  | _ => d
  end.

(** [!x] on an optional string. *)
Definition falsy (x : option string) : bool :=
  match x with
  | Some (String _ _) => false
  | _ => true
  end.

Fixpoint drop (n : nat) (s : string) : string :=
  match n, s with
  | S k, String _ r => drop k r
  | _, _ => s
  end.

Fixpoint take (n : nat) (s : string) : string :=
  match n, s with
  | S k, String c r => String c (take k r)
  | _, _ => EmptyString
  end.

Fixpoint rev_onto (acc s : string) : string :=
  match s with
  | EmptyString => acc
  | String c r => rev_onto (String c acc) r
  end.

(** [GetSubstitution] of ECMAScript for a pattern without capture groups:
    in the replacement text [$$] stands for a dollar sign, [$&] for the
    matched text, [$`] for the text before the match and [$'] for the text
    after it; every other character, a lone [$] included, is literal. *)
Fixpoint GetSubstitution (matched before after template : string) : string :=
  match template with
  | EmptyString => EmptyString
  | String c t =>
      if Ascii.eqb c "$" then
        match t with
        | EmptyString => String c EmptyString
        | String d t' =>
            if Ascii.eqb d "$" then String "$" (GetSubstitution matched before after t')
            else if Ascii.eqb d "&" then matched ++ GetSubstitution matched before after t'
            else if Ascii.eqb d "`" then before ++ GetSubstitution matched before after t'
            else if Ascii.eqb d "'" then after ++ GetSubstitution matched before after t'
            else String c (GetSubstitution matched before after t)
        end
      else String c (GetSubstitution matched before after t)
  end.

(** [str.replace(re, template)] for a global regular expression [re]
    without capture groups whose matches are never empty.  [match_at s]
    is the length of the match of [re] at the start of [s], if any.  The
    scan goes left to right; after a match it resumes behind the matched
    text.  [skip] counts the characters of the current match still to be
    passed over, [seen] holds the text already scanned, reversed. *)
Section Replace.
Variable match_at : string -> option nat.
Variable template : string.

Fixpoint replace_scan (skip : nat) (seen : string) (s : string) : string :=
  match s with
  | EmptyString => EmptyString
  | String c r =>
      match skip with
      | S k => replace_scan k (String c seen) r
      | O =>
          match match_at s with
          | Some (S len) =>
              GetSubstitution (take (S len) s) (rev_onto EmptyString seen)
                              (drop (S len) s) template
              ++ replace_scan len (String c seen) r
          | _ => String c (replace_scan O (String c seen) r)
          end
      end
  end.

Definition replace_g (s : string) : string := replace_scan O EmptyString s.
End Replace.

End Js.

(* ===================================================================== *)
(** ** Phone / message normalizer *)
(* ===================================================================== *)

Module Normalizer.
Import Js.

(** [\d]: the ten ASCII digits. *)
Definition is_digit (c : ascii) : bool :=
  (48 <=? nat_of_ascii c)%nat && (nat_of_ascii c <=? 57)%nat.

(** [/\D/]: one character that is not a digit. *)
Definition match_non_digit (s : string) : option nat :=
  match s with
  | String c _ => if is_digit c then None else Some 1%nat
  | EmptyString => None
  end.

(** [/\[Name\]/]: the six characters [[Name]]. *)
Definition match_name_token (s : string) : option nat :=
  if String.prefix "[Name]" s then Some 6%nat else None.

(** [formatPhoneNumber] *)
Definition formatPhoneNumber (phone : string) : string :=
  let cleaned := replace_g match_non_digit "" phone in
  if (String.length cleaned =? 10)%nat then "1" ++ cleaned else cleaned.

(** [message.replace(/\[Name\]/g, contact.name || 'there')] *)
Definition personalize (message : string) (name : option string) : string :=
  replace_g match_name_token (or_else name "there") message.

(** The digits of a string, in order: what stripping is meant to leave. *)
Definition digits_of (s : string) : list ascii :=
  filter is_digit (list_ascii_of_string s).

(** Replacement of every occurrence of [[Name]] by a fixed text, with no
    interpretation of that text: what personalization is meant to do. *)
Fixpoint literal_scan (skip : nat) (by_text : string) (s : string) : string :=
  match s with
  | EmptyString => EmptyString
  | String c r =>
      match skip with
      | S k => literal_scan k by_text r
      | O =>
          if String.prefix "[Name]" s
          then by_text ++ literal_scan 5 by_text r
          else String c (literal_scan O by_text r)
      end
  end.

Definition replace_literally (by_text : string) (s : string) : string :=
  literal_scan O by_text s.

(** No dollar sign occurs in the text. *)
Fixpoint no_dollar (s : string) : bool :=
  match s with
  | EmptyString => true
  | String c r => negb (Ascii.eqb c "$") && no_dollar r
  end.

End Normalizer.

(* ===================================================================== *)
(** ** Connection manager *)
(* ===================================================================== *)

Module Connection.
Import Js.

(** A [Client] object of the transport library, named by the order in
    which the module constructed it. *)
Definition Client : Type := nat.

Record WhatsAppClientState : Type := mkState {
  client : option Client;
  isReady : bool;
  isConnecting : bool;
  currentQR : option string;
  lastError : option string;
  connectionAttempts : Z
}.

Definition MAX_CONNECTION_ATTEMPTS : Z := 3.
Definition CONNECTION_TIMEOUT : Z := 120000.

(** What the manager does to its surroundings. *)
Inductive Effect : Type :=
| MadeDirectory (path : string)
| DestroyCalled (c : Client)
| SessionOpened (c : Client) (dataPath : string)
| TimeoutArmed (ms : Z)
| TimeoutCleared
| CleanupScheduled (ms : Z)
| ReconnectScheduled (ms : Z)
| QrRendered (qr : string).

(** The module-level state: [clientState], the global [currentQRCode],
    the number of clients constructed so far, and the effects so far
    (latest first). *)
Record Runtime : Type := mkRuntime {
  clientState : WhatsAppClientState;
  currentQRCode : option string;
  clientsMade : nat;
  effects : list Effect
}.

Definition initialState : WhatsAppClientState :=
  mkState None false false None None 0.

Definition initialRuntime : Runtime :=
  mkRuntime initialState None 0 [].

(** What the process environment answers. *)
Record Env : Type := mkEnv {
  WEB_SESSION_PATH : option string;
  existsSync : string -> bool;
  mkdirSync : string -> Completion unit;
  destroy : Client -> Completion unit
}.

Definition set_state (f : WhatsAppClientState -> WhatsAppClientState) (r : Runtime) : Runtime :=
  mkRuntime (f (clientState r)) (currentQRCode r) (clientsMade r) (effects r).

Definition emit (e : Effect) (r : Runtime) : Runtime :=
  mkRuntime (clientState r) (currentQRCode r) (clientsMade r) (e :: effects r).

Definition set_client (c : option Client) (s : WhatsAppClientState) :=
  mkState c (isReady s) (isConnecting s) (currentQR s) (lastError s) (connectionAttempts s).
Definition set_isReady (b : bool) (s : WhatsAppClientState) :=
  mkState (client s) b (isConnecting s) (currentQR s) (lastError s) (connectionAttempts s).
Definition set_isConnecting (b : bool) (s : WhatsAppClientState) :=
  mkState (client s) (isReady s) b (currentQR s) (lastError s) (connectionAttempts s).
Definition set_currentQR (q : option string) (s : WhatsAppClientState) :=
  mkState (client s) (isReady s) (isConnecting s) q (lastError s) (connectionAttempts s).
Definition set_lastError (e : option string) (s : WhatsAppClientState) :=
  mkState (client s) (isReady s) (isConnecting s) (currentQR s) e (connectionAttempts s).
Definition set_connectionAttempts (n : Z) (s : WhatsAppClientState) :=
  mkState (client s) (isReady s) (isConnecting s) (currentQR s) (lastError s) n.

Definition has_client (s : WhatsAppClientState) : bool :=
  match client s with Some _ => true | None => false end.

(** [ensureSessionDirectory] *)
Definition ensureSessionDirectory (E : Env) (r : Runtime) : Completion string * Runtime :=
  let sessionPath := or_else (WEB_SESSION_PATH E) "./whatsapp-session" in
  if existsSync E sessionPath then (Normal sessionPath, r)
  else
    match mkdirSync E sessionPath with
    | Normal _ => (Normal sessionPath, emit (MadeDirectory sessionPath) r)
    | Throw e => (Throw e, r)
    end.

(** [try { await client.destroy() } catch (error) { console.log(...) }] *)
Definition destroy_best_effort (E : Env) (c : Client) (r : Runtime) : Runtime :=
  match destroy E c with
  | Normal _ => emit (DestroyCalled c) r
  | Throw _ => emit (DestroyCalled c) r
  end.

Definition string_of_Z (z : Z) : string := NilZero.string_of_int (Z.to_int z).

Definition exhausted_message : string :=
  "Maximum connection attempts (" ++ string_of_Z MAX_CONNECTION_ATTEMPTS
  ++ ") exceeded. Please try again later.".

(** The error of the attempt ceiling, [ConnectionExhausted] in the
    specification's taxonomy. *)
Definition ConnectionExhausted : Thrown := ErrorObj exhausted_message.

(** How a call of [initializeWhatsAppWebClient] stands: returned, thrown,
    or suspended at [await clientState.client.initialize()]. *)
Inductive InitResult : Type :=
| Returned
| Raised (e : Thrown)
| Pending.

(** The [catch] block of [initializeWhatsAppWebClient]. *)
Definition initialize_catch (E : Env) (e : Thrown) (r : Runtime) : InitResult * Runtime :=
  let r1 := set_state (fun s =>
              set_isReady false (set_isConnecting false
                (set_lastError (Some (message_or "Unknown initialization error" e)) s))) r in
  let r2 := match client (clientState r1) with
            | Some c => set_state (set_client None) (destroy_best_effort E c r1)
            | None => r1
            end in
  (Raised e, r2).

(** [initializeWhatsAppWebClient] up to the point where it awaits the
    transport's [client.initialize()]. *)
Definition initialize_begin (E : Env) (r : Runtime) : InitResult * Runtime :=
  let s := clientState r in
  if isConnecting s then (Returned, r)
  else if has_client s && isReady s then (Returned, r)
  else if (MAX_CONNECTION_ATTEMPTS <=? connectionAttempts s)%Z then (Raised ConnectionExhausted, r)
  else
    let r1 := set_state (fun s =>
                set_currentQR None (set_lastError None
                  (set_connectionAttempts (connectionAttempts s + 1)
                    (set_isConnecting true s)))) r in
    let r2 := match client (clientState r1) with
              | Some c => set_state (fun s => set_isReady false (set_client None s))
                            (destroy_best_effort E c r1)
              | None => r1
              end in
    match ensureSessionDirectory E r2 with
    | (Throw e, r3) => initialize_catch E e r3
    | (Normal sessionPath, r3) =>
        let c := clientsMade r3 in
        let r4 := mkRuntime (set_client (Some c) (clientState r3)) (currentQRCode r3)
                            (S c) (effects r3) in
        (Pending, emit (TimeoutArmed CONNECTION_TIMEOUT) (emit (SessionOpened c sessionPath) r4))
    end.

(** The rest of [initializeWhatsAppWebClient], once the awaited
    [client.initialize()] has settled. *)
Definition initialize_settle (E : Env) (opened : Completion unit) (r : Runtime)
  : InitResult * Runtime :=
  match opened with
  | Normal _ => (Returned, emit TimeoutCleared r)
  | Throw e => initialize_catch E e r
  end.

(** The lifecycle events for which [initializeWhatsAppWebClient] registers
    a handler on the client it constructs. *)
Inductive TransportEvent : Type :=
| Qr (qr : string)
| Ready
| Authenticated
| AuthFailure (msg : string)
| Disconnected (reason : string)
| LoadingScreen (percent message : string).

(** The handlers. *)
Definition on_event (ev : TransportEvent) (r : Runtime) : Runtime :=
  match ev with
  | Qr qr =>
      let r1 := emit (QrRendered qr) r in
      mkRuntime (set_currentQR (Some qr) (clientState r1)) (Some qr) (clientsMade r1) (effects r1)
  | Ready =>
      mkRuntime
        (set_connectionAttempts 0 (set_currentQR None
           (set_isConnecting false (set_isReady true (clientState r)))))
        None (clientsMade r) (effects r)
  | Authenticated => r
  | AuthFailure msg =>
      emit (CleanupScheduled 1000)
        (set_state (fun s =>
           set_isConnecting false (set_isReady false
             (set_lastError (Some ("Authentication failed: " ++ msg)) s))) r)
  | Disconnected reason =>
      let r1 := set_state (fun s =>
                  set_lastError (Some ("Disconnected: " ++ reason))
                    (set_currentQR None (set_isConnecting false (set_isReady false s)))) r in
      if String.eqb reason "LOGOUT" then r1 else emit (ReconnectScheduled 5000) r1
  | LoadingScreen _ _ => r
  end.

(** The callback of the startup timer armed by [initializeWhatsAppWebClient]. *)
Definition on_timeout (E : Env) (r : Runtime) : Runtime :=
  if isConnecting (clientState r) then
    let r1 := set_state (fun s =>
                set_isConnecting false (set_lastError (Some "Connection timeout") s)) r in
    match client (clientState r1) with
    | Some c => set_state (set_client None) (destroy_best_effort E c r1)
    | None => r1
    end
  else r.

(** [disconnectWhatsAppWeb] *)
Definition disconnectWhatsAppWeb (E : Env) (r : Runtime) : Runtime :=
  match client (clientState r) with
  | Some c =>
      set_state (fun s =>
        set_connectionAttempts 0 (set_lastError None (set_currentQR None
          (set_isConnecting false (set_isReady false (set_client None s))))))
        (destroy_best_effort E c r)
  | None => r
  end.

(** [resetConnectionAttempts] *)
Definition resetConnectionAttempts (r : Runtime) : Runtime :=
  set_state (fun s => set_lastError None (set_connectionAttempts 0 s)) r.

(** [getCurrentQRCode] *)
Definition getCurrentQRCode (r : Runtime) : option string :=
  match currentQR (clientState r) with
  | Some (String c q) => Some (String c q)
  | _ => match currentQRCode r with
         | Some (String c q) => Some (String c q)
         | _ => None
         end
  end.

(** A whole call of [initializeWhatsAppWebClient]: the events in [during]
    arrive while [client.initialize()] is awaited, which then settles as
    [opened]. *)
Definition initializeWhatsAppWebClient (E : Env) (during : list TransportEvent)
    (opened : Completion unit) (r : Runtime) : InitResult * Runtime :=
  match initialize_begin E r with
  | (Pending, r1) => initialize_settle E opened (fold_left (fun x ev => on_event ev x) during r1)
  | done => done
  end.

(** One step of the manager.  The operations are driven by one writer and
    do not overlap one another; the one suspension point at which other
    steps run is the await of the transport's [client.initialize()],
    between [initialize_begin] and [initialize_settle].  The transport
    delivers an event to the handlers registered on the client the
    manager holds; a client whose [destroy()] was called, and which the
    manager has dropped, is silent.  The timer callback and the settling
    of an awaited open are allowed at any moment, and so is the
    reconnection that the disconnected handler schedules, which is a call
    of initialize. *)
Inductive step : Runtime -> Runtime -> Prop :=
| step_initialize (E : Env) (r : Runtime) :
    step r (snd (initialize_begin E r))
| step_settle (E : Env) (opened : Completion unit) (r : Runtime) :
    step r (snd (initialize_settle E opened r))
| step_event (ev : TransportEvent) (r : Runtime) :
    client (clientState r) <> None -> step r (on_event ev r)
| step_timeout (E : Env) (r : Runtime) :
    step r (on_timeout E r)
| step_disconnect (E : Env) (r : Runtime) :
    step r (disconnectWhatsAppWeb E r)
| step_resetAttempts (r : Runtime) :
    step r (resetConnectionAttempts r).

Inductive reachable : Runtime -> Prop :=
| reachable_initial : reachable initialRuntime
| reachable_step (r r' : Runtime) : reachable r -> step r r' -> reachable r'.

(** An environment in which the session directory exists and teardown
    succeeds. *)
Definition quietEnv : Env :=
  mkEnv None (fun _ => true) (fun _ => Normal tt) (fun _ => Normal tt).


(** A session open that the transport rejects. *)
Definition refused : Completion unit :=
  Throw (ErrorObj "Failed to launch the browser process!").

(** The runtime after [n] calls of [initializeWhatsAppWebClient] from the
    start, each rejected by the transport. *)
Fixpoint after_failures (n : nat) : Runtime :=
  match n with
  | O => initialRuntime
  | S k => snd (initializeWhatsAppWebClient quietEnv [] refused (after_failures k))
  end.


End Connection.

(* ===================================================================== *)
(** ** Delivery backends *)
(* ===================================================================== *)

Module Delivery.
Import Js Normalizer Connection.

Record Contact : Type := mkContact {
  id : string;
  phone : string;
  name : option string;
  customMessage : option string
}.

Record MessageResult : Type := mkResult {
  success : bool;
  error : option string;
  messageId : option string
}.

(** A [File] of the attachment list; the code reads its [name] only. *)
Record File : Type := mkFile { file_name : string }.

(** The part of [process.env] the delivery code reads. *)
Record Config : Type := mkConfig {
  USE_WHATSAPP_BUSINESS_API : option string;
  WHATSAPP_ACCESS_TOKEN : option string;
  PHONE_NUMBER_ID : option string
}.

Record Payload : Type := mkPayload {
  messaging_product : string;
  to : string;
  type : string;
  text_body : string
}.

(** The parsed body of a provider response, as far as the code looks into
    it: [null], or a value with [error?.message] and [messages?.[0]?.id]. *)
Inductive Json : Type :=
| JsonNull
| JsonValue (error_message : option string) (first_message_id : option string).

Record Response : Type := mkResponse {
  ok : bool;
  json : Completion Json
}.

Definition Chat : Type := string.

Inductive Content : Type :=
| Text (body : string)
| Media (path : string).

(** What a run does to the outside world, latest first in a history. *)
Inductive Effect : Type :=
| HttpPost (url authorization : string) (body : Payload)
| GetChatById (chatId : string)
| ClientSendMessage (c : Client) (chatId : string) (content : Content)
| ChatSendMessage (chat : Chat) (body : string)
| MediaFromFilePath (path : string)
| ClockRead
| Slept (ms : Z).

Definition History : Type := list Effect.

(** What the outside world answers, given everything done so far. *)
Record Transport : Type := mkTransport {
  fetch : History -> string -> string -> Payload -> Completion Response;
  getChatById : History -> Client -> string -> Completion (option Chat);
  clientSendMessage : History -> Client -> string -> Content -> Completion unit;
  chatSendMessage : History -> Chat -> string -> Completion unit;
  fromFilePath : History -> string -> Completion string;
  dateNow : History -> Z
}.

(** The outcome of running a piece of the module: a value, a thrown
    value (a rejected promise), or a loop cut off by its fuel. *)
Inductive Result (A : Type) : Type :=
| Ok (a : A)
| Err (e : Thrown)
| Diverged.
Arguments Ok {A} a.
Arguments Err {A} e.
Arguments Diverged {A}.

Definition M (A : Type) : Type := History -> Result A * History.

Definition ret {A} (a : A) : M A := fun h => (Ok a, h).
Definition throw {A} (e : Thrown) : M A := fun h => (Err e, h).
Definition out_of_fuel {A} : M A := fun h => (Diverged, h).

Definition bind {A B} (m : M A) (k : A -> M B) : M B :=
  fun h =>
    match m h with
    | (Ok a, h') => k a h'
    | (Err e, h') => (Err e, h')
    | (Diverged, h') => (Diverged, h')
    end.

(** [try { body } catch (error) { handler }] *)
Definition try_catch {A} (body : M A) (handler : Thrown -> M A) : M A :=
  fun h =>
    match body h with
    | (Err e, h') => handler e h'
    | done => done
    end.

(** An awaited call to the outside: the effect is recorded, then the
    answer is a value or a throw. *)
Definition call {A} (e : Effect) (answer : History -> Completion A) : M A :=
  fun h =>
    match answer h with
    | Normal a => (Ok a, e :: h)
    | Throw x => (Err x, e :: h)
    end.

Definition lift {A} (c : Completion A) : M A :=
  fun h => match c with Normal a => (Ok a, h) | Throw x => (Err x, h) end.

(** [await new Promise(resolve => setTimeout(resolve, ms))] *)
Definition sleep (ms : Z) : M unit := fun h => (Ok tt, Slept ms :: h).

Declare Scope delivery_scope.
Delimit Scope delivery_scope with delivery.
Notation "x <- m ;; k" := (bind m (fun x => k))
  (at level 61, m at next level, right associativity) : delivery_scope.
Notation "m ;; k" := (bind m (fun _ => k))
  (at level 61, right associativity) : delivery_scope.
Local Open Scope delivery_scope.

Definition text_of (x : option string) : string :=
  match x with Some s => s | None => "" end.

Definition credentials_missing : string :=
  "WhatsApp Business API credentials not configured".
Definition not_ready : string :=
  "WhatsApp Web client not ready. Please initialize first.".

(** The [TypeError] of reading a property of [null]. *)
Definition null_read (property : string) : Thrown :=
  ErrorObj ("Cannot read properties of null (reading '" ++ property ++ "')").

(** The [catch] block both send functions share. *)
Definition failure_of (e : Thrown) : M MessageResult :=
  ret (mkResult false (Some (message_or "Unknown error" e)) None).

(** The [try] block of [sendMessageUsingBusinessAPI]. *)
Definition businessAPI_try (cfg : Config) (T : Transport) (contact : Contact)
    (message : string) (attachments : option (list File)) : M MessageResult :=
  let accessToken := WHATSAPP_ACCESS_TOKEN cfg in
  let phoneNumberId := PHONE_NUMBER_ID cfg in
  if falsy accessToken || falsy phoneNumberId then
    throw (ErrorObj credentials_missing)
  else
    let formattedPhone := formatPhoneNumber (phone contact) in
    let personalizedMessage := personalize message (name contact) in
    let payload := mkPayload "whatsapp" formattedPhone "text" personalizedMessage in
    let url := "https://graph.facebook.com/v18.0/" ++ text_of phoneNumberId ++ "/messages" in
    let authorization := "Bearer " ++ text_of accessToken in
    response <- call (HttpPost url authorization payload)
                     (fun h => fetch T h url authorization payload) ;;
    result <- lift (json response) ;;
    if negb (ok response) then
      match result with
      | JsonNull => throw (null_read "error")
      | JsonValue error_message _ =>
          throw (ErrorObj (or_else error_message "Failed to send message"))
      end
    else
      match result with
      | JsonNull => throw (null_read "messages")
      | JsonValue _ first_message_id => ret (mkResult true None first_message_id)
      end.

(** [sendMessageUsingBusinessAPI] *)
Definition sendMessageUsingBusinessAPI (cfg : Config) (T : Transport) (contact : Contact)
    (message : string) (attachments : option (list File)) : M MessageResult :=
  try_catch (businessAPI_try cfg T contact message attachments) failure_of.

(** [for (const attachment of attachments) { ... }] *)
Fixpoint send_attachments (T : Transport) (c : Client) (chatId : string)
    (attachments : list File) : M unit :=
  match attachments with
  | [] => ret tt
  | attachment :: rest =>
      media <- call (MediaFromFilePath (file_name attachment))
                    (fun h => fromFilePath T h (file_name attachment)) ;;
      call (ClientSendMessage c chatId (Media media))
           (fun h => clientSendMessage T h c chatId (Media media)) ;;
      send_attachments T c chatId rest
  end.

(** [client.getChatById(chatId).catch(() => null)] *)
Definition find_chat (T : Transport) (c : Client) (chatId : string) : M (option Chat) :=
  fun h =>
    match getChatById T h c chatId with
    | Normal chat => (Ok chat, GetChatById chatId :: h)
    | Throw _ => (Ok None, GetChatById chatId :: h)
    end.

(** The [try] block of [sendMessageUsingWebAutomation]; [cs] is the
    module's [clientState] at the time of the call. *)
Definition webAutomation_try (cs : WhatsAppClientState) (T : Transport) (contact : Contact)
    (message : string) (attachments : option (list File)) : M MessageResult :=
  match client cs, isReady cs with
  | Some c, true =>
      let formattedPhone := formatPhoneNumber (phone contact) in
      let chatId := formattedPhone ++ "@c.us" in
      let personalizedMessage := personalize message (name contact) in
      chat <- find_chat T c chatId ;;
      match chat with
      | None => call (ClientSendMessage c chatId (Text personalizedMessage))
                     (fun h => clientSendMessage T h c chatId (Text personalizedMessage))
      | Some ch => call (ChatSendMessage ch personalizedMessage)
                        (fun h => chatSendMessage T h ch personalizedMessage)
      end ;;
      match attachments with
      | Some l => send_attachments T c chatId l
      | None => ret tt
      end ;;
      now <- call ClockRead (fun h => Normal (dateNow T h)) ;;
      ret (mkResult true None (Some ("web_" ++ string_of_Z now)))
  | _, _ => throw (ErrorObj not_ready)
  end.

(** [sendMessageUsingWebAutomation] *)
Definition sendMessageUsingWebAutomation (cs : WhatsAppClientState) (T : Transport)
    (contact : Contact) (message : string) (attachments : option (list File))
  : M MessageResult :=
  try_catch (webAutomation_try cs T contact message attachments) failure_of.

(** [sendMessage] *)
Definition sendMessage (cfg : Config) (cs : WhatsAppClientState) (T : Transport)
    (contact : Contact) (message : string) (attachments : option (list File))
  : M MessageResult :=
  let useBusinessAPI :=
    match USE_WHATSAPP_BUSINESS_API cfg with
    | Some v => String.eqb v "true"
    | None => false
    end in
  if useBusinessAPI
  then sendMessageUsingBusinessAPI cfg T contact message attachments
  else sendMessageUsingWebAutomation cs T contact message attachments.

Definition is_post (e : Effect) : bool :=
  match e with HttpPost _ _ _ => true | _ => false end.

(** A transport that rejects every request. *)
Definition deafTransport : Transport :=
  mkTransport (fun _ _ _ _ => Throw (ErrorObj "fetch failed"))
              (fun _ _ _ => Throw (ErrorObj "Evaluation failed"))
              (fun _ _ _ _ => Throw (ErrorObj "Evaluation failed"))
              (fun _ _ _ => Throw (ErrorObj "Evaluation failed"))
              (fun _ _ => Throw (ErrorObj "ENOENT"))
              (fun _ => 0%Z).

(** The failure result the [catch] block builds from a thrown value. *)
Definition failure (e : Thrown) : MessageResult :=
  mkResult false (Some (message_or "Unknown error" e)) None.

(** How a send function relates to its [try] block: it returns what the
    block returns, and the failure result of what the block throws. *)
Definition settles {A : Type} (body : Result MessageResult * A)
    (whole : Result MessageResult * A) : Prop :=
  match body with
  | (Ok r, h') => whole = (Ok r, h') /\ success r = true
  | (Err e, h') => whole = (Ok (failure e), h')
  | (Diverged, _) => False
  end.

(** The computation returns a value satisfying [P] or throws; it is never
    cut off for lack of fuel. *)
Definition safe {A : Type} (P : A -> Prop) (m : M A) : Prop :=
  forall h, match m h with
            | (Ok a, _) => P a
            | (Err _, _) => True
            | (Diverged, _) => False
            end.


Definition anything {A : Type} : A -> Prop := fun _ => True.

Definition succeeds (r : MessageResult) : Prop := success r = true.

End Delivery.

(* ===================================================================== *)
(** ** Batch dispatcher *)
(* ===================================================================== *)

Module Dispatcher.
Import Js Normalizer Connection Delivery.
Local Open Scope delivery_scope.
Local Open Scope Z_scope.

(** An entry of [results]: a [MessageResult] with the [contactId] the
    dispatcher adds. *)
Record Entry : Type := mkEntry {
  e_success : bool;
  e_error : option string;
  e_messageId : option string;
  contactId : string
}.

Record Summary : Type := mkSummary {
  total : Z;
  successful : Z;
  failed : Z
}.

Record Output : Type := mkOutput {
  results : list Entry;
  summary : Summary
}.

Definition default_batchSize : Z := 50.
Definition default_delayBetweenMessages : Z := 2000.
Definition default_maxRetries : Z := 3.
Definition batchDelay : Z := 5000.

(** An index argument of [Array.prototype.slice], made relative to the
    array: a negative one counts from the end. *)
Definition relative_index (len k : Z) : Z :=
  if k <? 0 then Z.max (len + k) 0 else Z.min k len.

(** [array.slice(start, stop)] *)
Definition slice {A : Type} (l : list A) (start stop : Z) : list A :=
  let len := Z.of_nat (length l) in
  let k := relative_index len start in
  let final := relative_index len stop in
  firstn (Z.to_nat (final - k)) (skipn (Z.to_nat k) l).

(** [for (let i = 0; i < contacts.length; i += batchSize)
       batches.push(contacts.slice(i, i + batchSize))],
    from loop variable [i] on; [None] when the fuel runs out. *)
Fixpoint split_loop (fuel : nat) (contacts : list Contact) (batchSize : Z) (i : Z)
    (batches : list (list Contact)) : option (list (list Contact)) :=
  match fuel with
  | O => None
  | S fuel' =>
      if i <? Z.of_nat (length contacts)
      then split_loop fuel' contacts batchSize (i + batchSize)
             (batches ++ [slice contacts i (i + batchSize)])%list
      else Some batches
  end.

(** The variables of the retry loop, with [results]. *)
Record Retry : Type := mkRetry {
  attempts : Z;
  succeeded : bool;
  lastErr : string;
  acc : list Entry
}.

(** One pass through the body of the [while] loop. *)
Definition attempt (cfg : Config) (cs : WhatsAppClientState) (T : Transport)
    (contact : Contact) (message : string) (delayBetweenMessages maxRetries : Z)
    (v : Retry) : M Retry :=
  let attempts' := attempts v + 1 in
  v' <- try_catch
          ((if (0 <? Z.of_nat (length (acc v))) then sleep delayBetweenMessages else ret tt) ;;
           result <- sendMessage cfg cs T contact message None ;;
           let acc' := (acc v ++ [mkEntry (success result) (error result) (messageId result)
                                         (id contact)])%list in
           if success result
           then ret (mkRetry attempts' true (lastErr v) acc')
           else ret (mkRetry attempts' false (or_else (error result) "Unknown error") acc'))
          (fun e => ret (mkRetry attempts' (succeeded v) (message_or "Unknown error" e) (acc v))) ;;
  (if negb (succeeded v') && (attempts v' <? maxRetries)
   then sleep delayBetweenMessages else ret tt) ;;
  ret v'.

(** [while (attempts < maxRetries && !success) { ... }] *)
Fixpoint retry_loop (fuel : nat) (cfg : Config) (cs : WhatsAppClientState) (T : Transport)
    (contact : Contact) (message : string) (delayBetweenMessages maxRetries : Z)
    (v : Retry) : M Retry :=
  if (attempts v <? maxRetries) && negb (succeeded v) then
    match fuel with
    | O => out_of_fuel
    | S fuel' =>
        v' <- attempt cfg cs T contact message delayBetweenMessages maxRetries v ;;
        retry_loop fuel' cfg cs T contact message delayBetweenMessages maxRetries v'
    end
  else ret v.

(** The body of the loop over the contacts of a batch. *)
Definition process_contact (fuel : nat) (cfg : Config) (cs : WhatsAppClientState)
    (T : Transport) (message : string) (delayBetweenMessages maxRetries : Z)
    (contact : Contact) (res : list Entry) : M (list Entry) :=
  v <- retry_loop fuel cfg cs T contact message delayBetweenMessages maxRetries
         (mkRetry 0 false "" res) ;;
  if negb (succeeded v)
  then ret (acc v ++ [mkEntry false (Some (lastErr v)) None (id contact)])%list
  else ret (acc v).

Fixpoint process_batch (fuel : nat) (cfg : Config) (cs : WhatsAppClientState)
    (T : Transport) (message : string) (delayBetweenMessages maxRetries : Z)
    (batch : list Contact) (res : list Entry) : M (list Entry) :=
  match batch with
  | [] => ret res
  | contact :: rest =>
      res' <- process_contact fuel cfg cs T message delayBetweenMessages maxRetries contact res ;;
      process_batch fuel cfg cs T message delayBetweenMessages maxRetries rest res'
  end.

(** The loop over the batches, from [batchIndex] on; [count] is
    [batches.length]. *)
Fixpoint process_batches (fuel : nat) (cfg : Config) (cs : WhatsAppClientState)
    (T : Transport) (message : string) (delayBetweenMessages maxRetries : Z)
    (count : Z) (batchIndex : Z) (rest : list (list Contact)) (res : list Entry)
  : M (list Entry) :=
  match rest with
  | [] => ret res
  | batch :: rest' =>
      res' <- process_batch fuel cfg cs T message delayBetweenMessages maxRetries batch res ;;
      (if batchIndex <? count - 1 then sleep batchDelay else ret tt) ;;
      process_batches fuel cfg cs T message delayBetweenMessages maxRetries
        count (batchIndex + 1) rest' res'
  end.

Definition count_where (p : Entry -> bool) (l : list Entry) : Z :=
  Z.of_nat (length (filter p l)).

(** [sendMessagesBatch]; every loop of the function draws on [fuel]. *)
Definition sendMessagesBatch (fuel : nat) (cfg : Config) (cs : WhatsAppClientState)
    (T : Transport) (contacts : list Contact) (message : string)
    (batchSize delayBetweenMessages maxRetries : Z) : M Output :=
  match split_loop fuel contacts batchSize 0 [] with
  | None => out_of_fuel
  | Some batches =>
      res <- process_batches fuel cfg cs T message delayBetweenMessages maxRetries
               (Z.of_nat (length batches)) 0 batches [] ;;
      let successful := count_where e_success res in
      let failed := count_where (fun r => negb (e_success r)) res in
      ret (mkOutput res (mkSummary (Z.of_nat (length contacts)) successful failed))
  end.

(** The entries of a result list that belong to a contact. *)
Definition entries_for (c : Contact) (l : list Entry) : list Entry :=
  filter (fun r => String.eqb (contactId r) (id c)) l.

Definition ana : Contact := mkContact "c1" "555-123-4567" (Some "Ana") None.
Definition ben : Contact := mkContact "c2" "+44 20 7946 0958" None None.
Definition cat : Contact := mkContact "c3" "5551234568" (Some "Cat") None.

(** The web-automation backend selected (nothing set in the environment). *)
Definition webConfig : Config := mkConfig None None None.

(** The entry recorded for a failed attempt while no session is ready. *)
Definition not_ready_entry (c : Contact) : Entry :=
  mkEntry false (Some not_ready) None (id c).

(** A manager whose first session is ready. *)
Definition readyState : WhatsAppClientState :=
  mkState (Some 0%nat) true false None None 0.

Definition is_client_send (e : Effect) : bool :=
  match e with ClientSendMessage _ _ _ => true | _ => false end.

(** A transport that knows no chat, rejects the first message handed to
    the client and accepts the later ones. *)
Definition flakyTransport : Transport :=
  mkTransport (fun _ _ _ _ => Throw (ErrorObj "fetch failed"))
              (fun _ _ _ => Normal None)
              (fun h _ _ _ => if existsb is_client_send h then Normal tt
                              else Throw (ErrorObj "Evaluation failed: timeout"))
              (fun _ _ _ => Normal tt)
              (fun _ path => Normal path)
              (fun _ => 1700000000000).

(** One contact and the defaults over the flaky transport: the first
    attempt fails, the second succeeds. *)
Definition retried_run : Result Output :=
  fst (sendMessagesBatch 4 webConfig readyState flakyTransport [ana] "Hi [Name], welcome!"
         default_batchSize default_delayBetweenMessages default_maxRetries []).


(** One contact, the default batch size, delay and retries, and no session
    ready. *)
Definition stalled_run : Result Output :=
  fst (sendMessagesBatch 4 webConfig initialState deafTransport [ana] "Hi [Name], welcome!"
         default_batchSize default_delayBetweenMessages default_maxRetries []).

End Dispatcher.

(* ===================================================================== *)
(** ** Further notions used in the laws below *)
(* ===================================================================== *)

Module Tokens.
Import Js Normalizer.

(** The token [[Name]] occurs somewhere in the text. *)
Fixpoint has_token (s : string) : bool :=
  String.prefix "[Name]" s
  || match s with
     | EmptyString => false
     | String _ r => has_token r
     end.

End Tokens.

Module Status.
Import Js Connection.
Local Open Scope Z_scope.



(** [x || null] on an optional string. *)
Definition truthy (x : option string) : option string :=
  match x with
  | Some (String c q) => Some (String c q)
  | _ => None
  end.

(** The [destroy()] call made when the manager lets go of its client. *)
Definition dropped (r : Runtime) : list Effect :=
  match client (clientState r) with
  | Some c => [DestroyCalled c]
  | None => []
  end.

(** The directory [ensureSessionDirectory] settles on. *)
Definition session_path (E : Env) : string :=
  or_else (WEB_SESSION_PATH E) "./whatsapp-session".

(** The attempt counter lies between zero and the ceiling. *)
Definition within_ceiling (r : Runtime) : Prop :=
  0 <= connectionAttempts (clientState r) <= MAX_CONNECTION_ATTEMPTS.

(** The QR payload in [clientState] is also the global one. *)
Definition mirrored (r : Runtime) : Prop :=
  forall q, currentQR (clientState r) = Some q -> currentQRCode r = Some q.



End Status.

Module Frames.
Import Js Normalizer Connection Delivery.

(** The computation leaves the effects selected by [keep] as they were:
    it adds none of them to the history. *)
Definition preserves {A : Type} (keep : Effect -> bool) (m : M A) : Prop :=
  forall h, filter keep (snd (m h)) = filter keep h.

(** The effects of the web-automation backend on the transport. *)
Definition is_session_effect (e : Effect) : bool :=
  match e with
  | GetChatById _ | ClientSendMessage _ _ _ | ChatSendMessage _ _
  | MediaFromFilePath _ | ClockRead => true
  | _ => false
  end.


(** The effects of sending the attachments one after the other, latest
    first, when each file is read and each media message accepted. *)
Definition attachment_effects (c : Client) (chatId : string) (attachments : list File)
  : History :=
  rev (flat_map (fun a => [MediaFromFilePath (file_name a);
                           ClientSendMessage c chatId (Media (file_name a))])
                attachments).

(** The request [sendMessageUsingBusinessAPI] posts for a contact. *)
Definition api_url (cfg : Config) : string :=
  "https://graph.facebook.com/v18.0/" ++ text_of (PHONE_NUMBER_ID cfg) ++ "/messages".
Definition api_authorization (cfg : Config) : string :=
  "Bearer " ++ text_of (WHATSAPP_ACCESS_TOKEN cfg).
Definition api_payload (contact : Contact) (message : string) : Payload :=
  mkPayload "whatsapp" (formatPhoneNumber (phone contact)) "text"
            (personalize message (name contact)).

(** What [sendMessageUsingBusinessAPI] makes of the provider's answer. *)
Definition api_outcome (answer : Completion Response) : MessageResult :=
  match answer with
  | Throw e => failure e
  | Normal response =>
      match json response with
      | Throw e => failure e
      | Normal JsonNull =>
          failure (null_read (if ok response then "messages" else "error"))
      | Normal (JsonValue error_message first_message_id) =>
          if ok response
          then mkResult true None first_message_id
          else mkResult false (Some (or_else error_message "Failed to send message")) None
      end
  end.

End Frames.

Module Blocks.
Import Js Normalizer Connection Delivery Dispatcher.
Local Open Scope Z_scope.














End Blocks.

(* ===================================================================== *)
(** ** Facts about the normalizer *)
(* ===================================================================== *)

Module NormalizerFacts.
Import Js Normalizer.

Lemma length_string_of_list (l : list ascii) :
  String.length (string_of_list_ascii l) = List.length l.
Proof. induction l as [|c l IH]; simpl; [reflexivity | now rewrite IH]. Qed.

(** Removing [/\D/g] leaves the digits, in order. *)
Lemma strip_scan (s : string) :
  forall seen, replace_scan match_non_digit "" 0 seen s = string_of_list_ascii (digits_of s).
Proof.
  unfold digits_of.
  induction s as [|c s IH]; intro seen; simpl; [reflexivity|].
  destruct (is_digit c); simpl; now rewrite IH.
Qed.

Lemma digits_are_digits (s : string) :
  Forall (fun c => is_digit c = true) (digits_of s).
Proof.
  apply Forall_forall. intros c Hin.
  apply filter_In in Hin. tauto.
Qed.

(** C6. [formatPhoneNumber] strips every character that is not a digit;
    when exactly ten digits remain it puts the digit [1] in front of
    them, which gives eleven digits; otherwise it returns the remaining
    digits as they are. *)
Theorem formatPhoneNumber_spec (phone : string) :
  let cleaned := string_of_list_ascii (digits_of phone) in
  formatPhoneNumber phone
    = (if (List.length (digits_of phone) =? 10)%nat then String "1" cleaned else cleaned)
  /\ String.length (formatPhoneNumber phone)
    = (if (List.length (digits_of phone) =? 10)%nat then 11 else List.length (digits_of phone))%nat
  /\ Forall (fun c => is_digit c = true) (list_ascii_of_string (formatPhoneNumber phone)).
Proof.
  intro cleaned. unfold formatPhoneNumber, replace_g.
  rewrite strip_scan. fold cleaned.
  assert (Hlen : String.length cleaned = List.length (digits_of phone))
    by apply length_string_of_list.
  rewrite Hlen.
  destruct (List.length (digits_of phone) =? 10)%nat eqn:Hten.
  - apply Nat.eqb_eq in Hten. repeat split.
    + simpl. now rewrite Hlen, Hten.
    + simpl. constructor; [reflexivity|].
      unfold cleaned. rewrite list_ascii_of_string_of_list_ascii.
      apply digits_are_digits.
  - repeat split; [exact Hlen|].
    unfold cleaned. rewrite list_ascii_of_string_of_list_ascii.
    apply digits_are_digits.
Qed.

Example format_ten_digits : formatPhoneNumber "555-123-4567" = "15551234567".
Proof. reflexivity. Qed.

Example format_with_country_code : formatPhoneNumber "+44 20 7946 0958" = "442079460958".
Proof. reflexivity. Qed.

Lemma GetSubstitution_plain (matched before after template : string) :
  no_dollar template = true ->
  GetSubstitution matched before after template = template.
Proof.
  induction template as [|c t IH]; simpl; [reflexivity|].
  intro H. apply andb_prop in H as [Hc Ht].
  destruct (Ascii.eqb c "$"); [discriminate|].
  now rewrite IH.
Qed.

Lemma scan_plain (by_text : string) (s : string) :
  no_dollar by_text = true ->
  forall skip seen,
    replace_scan match_name_token by_text skip seen s = literal_scan skip by_text s.
Proof.
  intro Hplain.
  induction s as [|c s IH]; intros skip seen; [reflexivity|].
  cbn [replace_scan literal_scan].
  destruct skip as [|k]; [|apply IH].
  unfold match_name_token.
  destruct (String.prefix "[Name]" (String c s)).
  - rewrite GetSubstitution_plain by exact Hplain. now rewrite IH.
  - now rewrite IH.
Qed.

(** When the text put in place of the token holds no dollar sign,
    personalization is the literal replacement of every [[Name]]. *)
Lemma personalize_plain (message : string) (name : option string) :
  no_dollar (or_else name "there") = true ->
  personalize message name = replace_literally (or_else name "there") message.
Proof. intro H. unfold personalize, replace_g, replace_literally. now apply scan_plain. Qed.

Example personalize_named :
  personalize "Hi [Name], welcome!" (Some "Ana") = "Hi Ana, welcome!".
Proof. reflexivity. Qed.

Example personalize_unnamed :
  personalize "Hi [Name], welcome!" None = "Hi there, welcome!".
Proof. reflexivity. Qed.

(** C7. Personalization is meant to put the contact's name in place of
    every [[Name]].  The name is handed to [replace] as a replacement
    pattern, so for the contact name [Ca$$h] the message reads [Ca$h]:
    the two dollar signs of the name come out as one, and the result is
    not the template with the name in place of the token. *)
Theorem personalize_rewrites_dollar_names :
  personalize "Hi [Name], welcome!" (Some "Ca$$h") = "Hi Ca$h, welcome!"
  /\ replace_literally "Ca$$h" "Hi [Name], welcome!" = "Hi Ca$$h, welcome!"
  /\ String.eqb (personalize "Hi [Name], welcome!" (Some "Ca$$h"))
                (replace_literally "Ca$$h" "Hi [Name], welcome!") = false.
Proof. repeat split. Qed.

End NormalizerFacts.

(* ===================================================================== *)
(** ** Facts about the connection manager *)
(* ===================================================================== *)

Module ConnectionFacts.
Import Js Connection.
Local Open Scope Z_scope.

Ltac break_runtime r :=
  let s := fresh "s" in
  destruct r as [s ? ? ?]; destruct s as [? ? ? ? ? ?].

(** Both outcomes of a best-effort [destroy()]. *)
Ltac teardown :=
  try (unfold destroy_best_effort;
       match goal with |- context [destroy ?E ?c] => destruct (destroy E c) end).

Lemma destroy_best_effort_state (E : Env) (c : Client) (r : Runtime) :
  destroy_best_effort E c r = emit (DestroyCalled c) r.
Proof. unfold destroy_best_effort. now destruct (destroy E c). Qed.

Lemma on_event_client (ev : TransportEvent) (r : Runtime) :
  client (clientState (on_event ev r)) = client (clientState r).
Proof.
  destruct ev; simpl; try reflexivity.
  now destruct (String.eqb reason "LOGOUT").
Qed.






Lemma initialize_begin_pending (E : Env) (r r1 : Runtime) :
  initialize_begin E r = (Pending, r1) -> client (clientState r1) <> None.
Proof.
  unfold initialize_begin.
  destruct (isConnecting (clientState r)); [discriminate|].
  destruct (has_client (clientState r) && isReady (clientState r)); [discriminate|].
  destruct (MAX_CONNECTION_ATTEMPTS <=? connectionAttempts (clientState r)); [discriminate|].
  destruct (ensureSessionDirectory E _) as [[path|e] r3].
  - intro H. injection H as <-. simpl. discriminate.
  - unfold initialize_catch. discriminate.
Qed.

Lemma reachable_events (during : list TransportEvent) :
  forall r, reachable r -> client (clientState r) <> None ->
            reachable (fold_left (fun x ev => on_event ev x) during r)
            /\ client (clientState (fold_left (fun x ev => on_event ev x) during r)) <> None.
Proof.
  induction during as [|ev l IH]; intros r Hr Hc; simpl; [now split|].
  apply IH.
  - eapply reachable_step; [exact Hr | now apply step_event].
  - now rewrite on_event_client.
Qed.

(** A whole call of initialize leads from a reachable state to a
    reachable state. *)
Lemma reachable_initialize (E : Env) (during : list TransportEvent)
    (opened : Completion unit) (r : Runtime) :
  reachable r -> reachable (snd (initializeWhatsAppWebClient E during opened r)).
Proof.
  intro Hr. unfold initializeWhatsAppWebClient.
  assert (Hb : reachable (snd (initialize_begin E r)))
    by (eapply reachable_step; [exact Hr | apply step_initialize]).
  destruct (initialize_begin E r) as [o r1] eqn:Hbegin. simpl in Hb.
  destruct o; try exact Hb.
  apply initialize_begin_pending in Hbegin.
  destruct (reachable_events during r1 Hb Hbegin) as [Hev _].
  eapply reachable_step; [exact Hev | apply step_settle].
Qed.

Lemma reachable_after_failures (n : nat) : reachable (after_failures n).
Proof.
  induction n as [|n IH]; simpl; [apply reachable_initial | now apply reachable_initialize].
Qed.


(** The event guard of [step] matters: were a ready event handled while
    the manager holds no client, the next initialize would skip its
    clean-up of [isReady] and set [isConnecting] next to it. *)
Remark ready_without_client_would_overlap :
  let r := snd (initialize_begin quietEnv (on_event Ready initialRuntime)) in
  isReady (clientState r) && isConnecting (clientState r) = true.
Proof. reflexivity. Qed.




(** C8, as stated, fails after a rejected attempt: the manager holds no
    client then, and disconnect leaves the recorded error and the attempt
    counter as they are. *)
Lemma disconnect_without_client_keeps_state :
  reachable (after_failures 1)
  /\ clientState (disconnectWhatsAppWeb quietEnv (after_failures 1))
     = mkState None false false None (Some "Failed to launch the browser process!") 1
  /\ clientState (disconnectWhatsAppWeb quietEnv (after_failures 1)) <> initialState.
Proof.
  split; [apply reachable_after_failures|].
  split; [reflexivity | discriminate].
Qed.

(** C8, amended. When the manager holds a client, disconnect calls its
    [destroy()], whose failure is not propagated, and sets every field of
    [clientState] to its initial value, the attempt counter included;
    when it holds none, disconnect changes nothing. *)
Theorem disconnect_resets_held_client (E : Env) (r : Runtime) :
  match client (clientState r) with
  | Some c =>
      clientState (disconnectWhatsAppWeb E r) = initialState
      /\ effects (disconnectWhatsAppWeb E r) = DestroyCalled c :: effects r
  | None => disconnectWhatsAppWeb E r = r
  end.
Proof.
  break_runtime r. unfold disconnectWhatsAppWeb. simpl.
  destruct client0; [|reflexivity].
  rewrite destroy_best_effort_state. split; reflexivity.
Qed.

End ConnectionFacts.

(* ===================================================================== *)
(** ** Facts about the delivery backends *)
(* ===================================================================== *)

Module DeliveryFacts.
Import Js Normalizer Connection Delivery.
Local Open Scope delivery_scope.

Lemma settles_returns {A : Type} (body whole : Result MessageResult * A) :
  settles body whole -> exists r h', whole = (Ok r, h').
Proof.
  destruct body as [[r|e|] h']; simpl.
  - intros [H _]. eauto.
  - intro H. eauto.
  - tauto.
Qed.

(** *** A small program logic: a computation that returns a value
    satisfying [P] or throws, and is never cut off. *)

Lemma safe_ret {A} (P : A -> Prop) (a : A) : P a -> safe P (ret a).
Proof. intros H h. exact H. Qed.

Lemma safe_throw {A} (P : A -> Prop) (e : Thrown) : safe P (throw e).
Proof. intros h. exact I. Qed.

Lemma safe_call {A} (P : A -> Prop) (e : Effect) (answer : History -> Completion A) :
  (forall a, P a) -> safe P (call e answer).
Proof. intros H h. unfold call. destruct (answer h); simpl; auto. Qed.

Lemma safe_lift {A} (P : A -> Prop) (c : Completion A) : (forall a, P a) -> safe P (lift c).
Proof. intros H h. unfold lift. destruct c; simpl; auto. Qed.


Lemma safe_bind {A B} (P : A -> Prop) (Q : B -> Prop) (m : M A) (k : A -> M B) :
  safe P m -> (forall a, P a -> safe Q (k a)) -> safe Q (bind m k).
Proof.
  intros Hm Hk h. unfold bind. specialize (Hm h).
  destruct (m h) as [[a|e|] h']; simpl in *; [|exact I|exact Hm].
  exact (Hk a Hm h').
Qed.



Lemma safe_find_chat (T : Transport) (c : Client) (chatId : string) :
  safe anything (find_chat T c chatId).
Proof. intros h. unfold find_chat. now destruct (getChatById T h c chatId). Qed.

Lemma safe_send_attachments (T : Transport) (c : Client) (chatId : string)
    (attachments : list File) :
  safe anything (send_attachments T c chatId attachments).
Proof.
  induction attachments as [|a l IH]; simpl.
  - now apply safe_ret.
  - apply safe_bind with (P := anything); [now apply safe_call|]. intros media _.
    apply safe_bind with (P := anything); [now apply safe_call|]. intros _ _.
    exact IH.
Qed.

Lemma safe_businessAPI_try (cfg : Config) (T : Transport) (contact : Contact)
    (message : string) (attachments : option (list File)) :
  safe succeeds (businessAPI_try cfg T contact message attachments).
Proof.
  unfold businessAPI_try.
  destruct (falsy _ || falsy _); [apply safe_throw|].
  apply safe_bind with (P := anything); [now apply safe_call|]. intros response _.
  apply safe_bind with (P := anything); [now apply safe_lift|]. intros result _.
  destruct (negb (ok response)), result; try apply safe_throw.
  now apply safe_ret.
Qed.

Lemma safe_webAutomation_try (cs : WhatsAppClientState) (T : Transport) (contact : Contact)
    (message : string) (attachments : option (list File)) :
  safe succeeds (webAutomation_try cs T contact message attachments).
Proof.
  unfold webAutomation_try.
  destruct (client cs) as [c|]; [|apply safe_throw].
  destruct (isReady cs); [|apply safe_throw].
  apply safe_bind with (P := anything); [apply safe_find_chat|]. intros chat _.
  apply safe_bind with (P := anything).
  { destruct chat; now apply safe_call. }
  intros _ _.
  apply safe_bind with (P := anything).
  { destruct attachments; [apply safe_send_attachments | now apply safe_ret]. }
  intros _ _.
  apply safe_bind with (P := anything); [now apply safe_call|]. intros now _.
  now apply safe_ret.
Qed.

(** A [try] block that is safe settles into a returned result under the
    shared [catch] block. *)
Lemma safe_settles (body : M MessageResult) (h : History) :
  safe succeeds body -> settles (body h) (try_catch body failure_of h).
Proof.
  intro Hs. specialize (Hs h). unfold settles, try_catch.
  destruct (body h) as [[r|e|] h']; simpl in *; [now split | reflexivity | exact Hs].
Qed.

(** C3. Neither send function throws. Each returns what its [try] block
    returns, and whatever the block throws it turns into a returned
    result with [success] false and the error text; a session that is not
    ready is such a case on the automation path. *)
Theorem send_never_raises (cfg : Config) (cs : WhatsAppClientState) (T : Transport)
    (contact : Contact) (message : string) (attachments : option (list File)) (h : History) :
  (exists r h', sendMessageUsingBusinessAPI cfg T contact message attachments h = (Ok r, h'))
  /\ settles (businessAPI_try cfg T contact message attachments h)
             (sendMessageUsingBusinessAPI cfg T contact message attachments h)
  /\ (exists r h', sendMessageUsingWebAutomation cs T contact message attachments h = (Ok r, h'))
  /\ settles (webAutomation_try cs T contact message attachments h)
             (sendMessageUsingWebAutomation cs T contact message attachments h)
  /\ match client cs, isReady cs with
     | Some _, true => True
     | _, _ => sendMessageUsingWebAutomation cs T contact message attachments h
               = (Ok (mkResult false (Some not_ready) None), h)
     end.
Proof.
  assert (Hb := safe_settles _ h (safe_businessAPI_try cfg T contact message attachments)).
  assert (Hw := safe_settles _ h (safe_webAutomation_try cs T contact message attachments)).
  split; [exact (settles_returns _ _ Hb)|].
  split; [exact Hb|].
  split; [exact (settles_returns _ _ Hw)|].
  split; [exact Hw|].
  unfold sendMessageUsingWebAutomation, try_catch, webAutomation_try.
  destruct (client cs); [destruct (isReady cs)|]; try exact I; reflexivity.
Qed.


(** C4. With the API backend selected and the access token or the
    phone-number identifier absent, a send returns the failure result
    with the text of the missing credentials and does nothing to the
    outside world: the history is unchanged, so no HTTP POST is made. *)
Theorem missing_credentials_fail_without_post (cfg : Config) (cs : WhatsAppClientState)
    (T : Transport) (contact : Contact) (message : string)
    (attachments : option (list File)) (h : History) :
  USE_WHATSAPP_BUSINESS_API cfg = Some "true" ->
  WHATSAPP_ACCESS_TOKEN cfg = None \/ PHONE_NUMBER_ID cfg = None ->
  sendMessage cfg cs T contact message attachments h
    = (Ok (mkResult false (Some "WhatsApp Business API credentials not configured") None), h)
  /\ sendMessageUsingBusinessAPI cfg T contact message attachments h
    = (Ok (mkResult false (Some "WhatsApp Business API credentials not configured") None), h)
  /\ filter is_post (snd (sendMessage cfg cs T contact message attachments h))
    = filter is_post h.
Proof.
  intros Huse Habsent.
  assert (Hmiss : falsy (WHATSAPP_ACCESS_TOKEN cfg) || falsy (PHONE_NUMBER_ID cfg) = true).
  { destruct Habsent as [-> | ->]; simpl; [reflexivity | apply orb_true_r]. }
  assert (Hapi : sendMessageUsingBusinessAPI cfg T contact message attachments h
                 = (Ok (mkResult false (Some credentials_missing) None), h)).
  { unfold sendMessageUsingBusinessAPI, try_catch, businessAPI_try. now rewrite Hmiss. }
  assert (Hsend : sendMessage cfg cs T contact message attachments h
                  = (Ok (mkResult false (Some credentials_missing) None), h)).
  { unfold sendMessage. rewrite Huse. exact Hapi. }
  split; [exact Hsend|]. split; [exact Hapi|]. now rewrite Hsend.
Qed.

(** C4 for the API backend with no access token. *)
Lemma missing_credentials_witness :
  sendMessage (mkConfig (Some "true") None (Some "106540352242922")) initialState deafTransport
    (mkContact "c1" "555-123-4567" (Some "Ana") None) "Hi [Name], welcome!" None []
  = (Ok (mkResult false (Some "WhatsApp Business API credentials not configured") None), []).
Proof.
  apply (missing_credentials_fail_without_post
           (mkConfig (Some "true") None (Some "106540352242922")) initialState deafTransport
           (mkContact "c1" "555-123-4567" (Some "Ana") None) "Hi [Name], welcome!" None []).
  - reflexivity.
  - left. reflexivity.
Defined.

End DeliveryFacts.

(* ===================================================================== *)
(** ** Facts about the batch dispatcher *)
(* ===================================================================== *)

Module DispatcherFacts.
Import Js Normalizer Connection Delivery Dispatcher DeliveryFacts.
Local Open Scope delivery_scope.
Local Open Scope Z_scope.






Section Retry.
Variables (cfg : Config) (cs : WhatsAppClientState) (T : Transport).
Variables (message : string) (delayBetweenMessages maxRetries : Z).





End Retry.








Example split_three_by_two :
  split_loop 4 [ana; ben; cat] 2 0 [] = Some [[ana; ben]; [cat]].
Proof. reflexivity. Qed.

Lemma filter_split_length {A : Type} (p : A -> bool) (l : list A) :
  (length (filter p l) + length (filter (fun x => negb (p x)) l) = length l)%nat.
Proof.
  induction l as [|x l IH]; simpl; [reflexivity|].
  destruct (p x); simpl; lia.
Qed.

(** What does hold of the summary: [total] is the length of the contact
    list, and [successful] and [failed] add up to the length of
    [results]. *)
Lemma summary_counts (fuel : nat) (cfg : Config) (cs : WhatsAppClientState)
    (T : Transport) (contacts : list Contact) (message : string)
    (batchSize delayBetweenMessages maxRetries : Z) (h h' : History) (out : Output) :
  sendMessagesBatch fuel cfg cs T contacts message batchSize delayBetweenMessages maxRetries h
    = (Ok out, h') ->
  total (summary out) = Z.of_nat (length contacts)
  /\ successful (summary out) + failed (summary out) = Z.of_nat (length (results out)).
Proof.
  unfold sendMessagesBatch.
  destruct (split_loop fuel contacts batchSize 0 []) as [batches|]; [|discriminate].
  unfold bind, ret.
  destruct (process_batches _ _ _ _ _ _ _ _ _ _ _ h) as [[res|e|] h1]; try discriminate.
  intro H. injection H as <- _. simpl. split; [reflexivity|].
  unfold count_where. rewrite <- Nat2Z.inj_add. f_equal. apply filter_split_length.
Qed.

(** A contact that gets through on the second attempt is recorded twice,
    once as failed and once as sent, and counted on both sides of the
    summary. *)
Example retried_contact_recorded_twice :
  retried_run
  = Ok (mkOutput [mkEntry false (Some "Evaluation failed: timeout") None "c1";
                  mkEntry true None (Some "web_1700000000000") "c1"]
                 (mkSummary 1 1 1)).
Proof. reflexivity. Qed.

(** C1. One result per contact is meant.  While no session is ready, one
    contact sent with the default three retries gets four entries in
    [results]: one pushed by each failed attempt and one more after the
    loop. *)
Theorem failed_contact_recorded_four_times :
  stalled_run
  = Ok (mkOutput [not_ready_entry ana; not_ready_entry ana; not_ready_entry ana;
                  not_ready_entry ana]
                 (mkSummary 1 0 4))
  /\ match stalled_run with
     | Ok out => length (entries_for ana (results out)) = 4%nat
     | _ => False
     end.
Proof. split; reflexivity. Qed.

(** C2. [successful + failed = total] is meant.  On the same run the
    summary counts one contact, no success and four failures. *)
Theorem summary_counts_attempts_not_contacts :
  match stalled_run with
  | Ok out =>
      total (summary out) = 1
      /\ successful (summary out) = 0
      /\ failed (summary out) = 4
      /\ (successful (summary out) + failed (summary out) =? total (summary out)) = false
  | _ => False
  end.
Proof. repeat split. Qed.

End DispatcherFacts.

(* ===================================================================== *)
(** ** Laws of the normalizer *)
(* ===================================================================== *)

Module NormalizerLaws.
Import Js Normalizer Tokens NormalizerFacts.

Lemma formatPhoneNumber_digits (phone : string) :
  formatPhoneNumber phone
  = if (List.length (digits_of phone) =? 10)%nat
    then String "1" (string_of_list_ascii (digits_of phone))
    else string_of_list_ascii (digits_of phone).
Proof.
  unfold formatPhoneNumber, replace_g. rewrite strip_scan.
  now rewrite length_string_of_list.
Qed.

Lemma digits_of_digits (l : list ascii) :
  Forall (fun c => is_digit c = true) l -> digits_of (string_of_list_ascii l) = l.
Proof.
  intro H. unfold digits_of. rewrite list_ascii_of_string_of_list_ascii.
  induction H as [|c l Hc _ IH]; simpl; [reflexivity|].
  now rewrite Hc, IH.
Qed.

(** Formatting an already formatted phone number changes nothing. *)
Theorem formatPhoneNumber_idempotent (phone : string) :
  formatPhoneNumber (formatPhoneNumber phone) = formatPhoneNumber phone.
Proof.
  pose proof (digits_are_digits phone) as Hd.
  rewrite (formatPhoneNumber_digits phone).
  destruct (List.length (digits_of phone) =? 10)%nat eqn:Hten.
  - apply Nat.eqb_eq in Hten.
    change (String "1" (string_of_list_ascii (digits_of phone)))
      with (string_of_list_ascii ("1"%char :: digits_of phone)).
    rewrite formatPhoneNumber_digits, digits_of_digits by (constructor; [reflexivity | exact Hd]).
    simpl List.length. now rewrite Hten.
  - rewrite formatPhoneNumber_digits, digits_of_digits by exact Hd.
    now rewrite Hten.
Qed.

(** A formatted phone number is never ten characters long. *)
Theorem formatPhoneNumber_never_ten (phone : string) :
  (String.length (formatPhoneNumber phone) =? 10)%nat = false.
Proof.
  rewrite formatPhoneNumber_digits.
  destruct (List.length (digits_of phone) =? 10)%nat eqn:Hten.
  - apply Nat.eqb_eq in Hten. simpl. now rewrite length_string_of_list, Hten.
  - now rewrite length_string_of_list.
Qed.

Lemma scan_without_token (template : string) (s : string) :
  has_token s = false ->
  forall seen, replace_scan match_name_token template 0 seen s = s.
Proof.
  induction s as [|c s IH]; intros Hno seen; [reflexivity|].
  cbn [has_token] in Hno. apply orb_false_iff in Hno as [Hhere Hrest].
  cbn [replace_scan]. unfold match_name_token. rewrite Hhere.
  now rewrite IH.
Qed.

(** A template in which [[Name]] does not occur is sent as it is,
    whatever the contact's name. *)
Theorem personalize_without_token (message : string) (name : option string) :
  has_token message = false -> personalize message name = message.
Proof. intro H. unfold personalize, replace_g. now apply scan_without_token. Qed.

Lemma personalize_without_token_witness :
  personalize "Hello, your order has shipped." (Some "Ca$$h")
  = "Hello, your order has shipped.".
Proof. apply (personalize_without_token "Hello, your order has shipped." (Some "Ca$$h")). reflexivity. Defined.

(** For a name without a dollar sign (or no name), personalization is
    the literal replacement of every [[Name]] by the name (or by
    [there]). *)
Theorem personalize_literal_for_plain_names (message : string) (name : option string) :
  no_dollar (or_else name "there") = true ->
  personalize message name = replace_literally (or_else name "there") message.
Proof. intro H. unfold personalize, replace_g, replace_literally. now apply scan_plain. Qed.

Lemma personalize_literal_witness :
  personalize "Hi [Name], [Name]!" (Some "Ana") = replace_literally "Ana" "Hi [Name], [Name]!".
Proof. apply (personalize_literal_for_plain_names "Hi [Name], [Name]!" (Some "Ana")). reflexivity. Defined.

Lemma take_drop (n : nat) (s : string) : (take n s ++ drop n s)%string = s.
Proof.
  revert s. induction n as [|n IH]; intro s; [reflexivity|].
  destruct s as [|c r]; [reflexivity|]. simpl. now rewrite IH.
Qed.

Lemma append_empty_r (s : string) : (s ++ "")%string = s.
Proof. induction s as [|c r IH]; simpl; [reflexivity | now rewrite IH]. Qed.

Lemma GetSubstitution_matched (matched before after : string) :
  GetSubstitution matched before after "$&" = matched.
Proof. cbn. apply append_empty_r. Qed.

Lemma scan_matched_text (s : string) :
  forall skip seen, replace_scan match_name_token "$&" skip seen s = drop skip s.
Proof.
  induction s as [|c r IH]; intros skip seen; [now destruct skip|].
  cbn [replace_scan]. destruct skip as [|k]; [|now rewrite IH].
  unfold match_name_token.
  destruct (String.prefix "[Name]" (String c r)).
  - rewrite IH, GetSubstitution_matched. exact (take_drop 6 (String c r)).
  - now rewrite IH.
Qed.

(** For a contact whose name is the two characters [$&], every template
    comes back unchanged: the token stays in the message. *)
Theorem personalize_ampersand_name_keeps_token (message : string) :
  personalize message (Some "$&") = message.
Proof. unfold personalize, replace_g. apply scan_matched_text. Qed.

End NormalizerLaws.

(* ===================================================================== *)
(** ** Laws of the connection manager *)
(* ===================================================================== *)

Module ConnectionLaws.
Import Js Connection Status ConnectionFacts.
Local Open Scope Z_scope.

(** *** The shape of each operation's result *)

Lemma initialize_catch_shape (E : Env) (e : Thrown) (r : Runtime) :
  initialize_catch E e r
  = (Raised e,
     mkRuntime (mkState None false false (currentQR (clientState r))
                        (Some (message_or "Unknown initialization error" e))
                        (connectionAttempts (clientState r)))
               (currentQRCode r) (clientsMade r) (dropped r ++ effects r)).
Proof.
  break_runtime r. unfold initialize_catch, dropped. simpl.
  destruct client0; simpl; teardown; reflexivity.
Qed.

Lemma on_timeout_shape (E : Env) (r : Runtime) :
  on_timeout E r
  = if isConnecting (clientState r)
    then mkRuntime (mkState None (isReady (clientState r)) false (currentQR (clientState r))
                            (Some "Connection timeout") (connectionAttempts (clientState r)))
                   (currentQRCode r) (clientsMade r) (dropped r ++ effects r)
    else r.
Proof.
  break_runtime r. unfold on_timeout, dropped. simpl.
  destruct isConnecting0; [|reflexivity].
  destruct client0; simpl; teardown; reflexivity.
Qed.

Lemma disconnect_shape (E : Env) (r : Runtime) :
  disconnectWhatsAppWeb E r
  = match client (clientState r) with
    | Some c => mkRuntime initialState (currentQRCode r) (clientsMade r)
                          (DestroyCalled c :: effects r)
    | None => r
    end.
Proof.
  break_runtime r. unfold disconnectWhatsAppWeb. simpl.
  destruct client0; simpl; teardown; reflexivity.
Qed.

(** The four ways [initialize_begin] can go. *)
Inductive BeginCase (E : Env) (r : Runtime) : InitResult * Runtime -> Prop :=
| begin_noop :
    isConnecting (clientState r) = true
    \/ (has_client (clientState r) = true /\ isReady (clientState r) = true) ->
    BeginCase E r (Returned, r)
| begin_exhausted :
    isConnecting (clientState r) = false ->
    has_client (clientState r) && isReady (clientState r) = false ->
    MAX_CONNECTION_ATTEMPTS <= connectionAttempts (clientState r) ->
    BeginCase E r (Raised ConnectionExhausted, r)
| begin_opened (made : list Effect) :
    isConnecting (clientState r) = false ->
    has_client (clientState r) && isReady (clientState r) = false ->
    connectionAttempts (clientState r) < MAX_CONNECTION_ATTEMPTS ->
    (existsSync E (session_path E) = true /\ made = [])
    \/ (existsSync E (session_path E) = false
        /\ (exists u, mkdirSync E (session_path E) = Normal u)
        /\ made = [MadeDirectory (session_path E)]) ->
    BeginCase E r
      (Pending,
       mkRuntime (mkState (Some (clientsMade r))
                          (isReady (clientState r) && negb (has_client (clientState r)))
                          true None None (connectionAttempts (clientState r) + 1))
                 (currentQRCode r) (S (clientsMade r))
                 (TimeoutArmed CONNECTION_TIMEOUT :: SessionOpened (clientsMade r) (session_path E)
                    :: made ++ dropped r ++ effects r))
| begin_no_directory (e : Thrown) :
    isConnecting (clientState r) = false ->
    has_client (clientState r) && isReady (clientState r) = false ->
    connectionAttempts (clientState r) < MAX_CONNECTION_ATTEMPTS ->
    existsSync E (session_path E) = false ->
    mkdirSync E (session_path E) = Throw e ->
    BeginCase E r
      (Raised e,
       mkRuntime (mkState None false false None
                          (Some (message_or "Unknown initialization error" e))
                          (connectionAttempts (clientState r) + 1))
                 (currentQRCode r) (clientsMade r) (dropped r ++ effects r)).

Lemma initialize_begin_cases (E : Env) (r : Runtime) :
  BeginCase E r (initialize_begin E r).
Proof.
  unfold initialize_begin.
  destruct (isConnecting (clientState r)) eqn:Hcn; [apply begin_noop; now left|].
  destruct (has_client (clientState r) && isReady (clientState r)) eqn:Hrd.
  { apply begin_noop. right. now apply andb_prop in Hrd. }
  destruct (MAX_CONNECTION_ATTEMPTS <=? connectionAttempts (clientState r)) eqn:Hmax.
  { apply Z.leb_le in Hmax. apply begin_exhausted; assumption. }
  apply Z.leb_gt in Hmax.
  pose proof (begin_opened E r) as Hopen.
  pose proof (begin_no_directory E r) as Hfail.
  break_runtime r. unfold dropped, has_client in *. simpl in *. subst.
  unfold ensureSessionDirectory. fold (session_path E) in *.
  destruct client0 as [c|]; destruct isReady0; simpl in *; try discriminate; teardown; simpl;
    (destruct (existsSync E (session_path E)) eqn:Hex; simpl;
     [ apply (Hopen []); auto
     | destruct (mkdirSync E (session_path E)) eqn:Hmk; simpl;
       [ apply (Hopen [MadeDirectory _]); eauto
       | rewrite initialize_catch_shape; apply Hfail; auto ] ]).
Qed.

Ltac begin_cases E r :=
  let x := fresh "x" in
  let H := fresh "H" in
  generalize (initialize_begin_cases E r); generalize (initialize_begin E r);
  intros x H;
  destruct H as [Hnoop | Hcn Hrd Hmax | made Hcn Hrd Hmax Hmade | e Hcn Hrd Hmax Hex Hmk].

(** Every step of the manager, with the result of each operation spelt
    out. *)
Ltac step_cases Hstep :=
  let E := fresh "E" in
  let r := fresh "r" in
  destruct Hstep as [E r | E [[]|?] r | [] r ? | E r | E r | r];
  [ begin_cases E r
  | simpl
  | unfold initialize_settle; rewrite initialize_catch_shape; simpl
  | | | | | |
  | rewrite on_timeout_shape; destruct (isConnecting (clientState r)) eqn:?
  | rewrite disconnect_shape; destruct (client (clientState r)) eqn:?
  | ].

Lemma reachable_invariant (P : Runtime -> Prop) :
  P initialRuntime ->
  (forall r r', P r -> step r r' -> P r') ->
  forall r, reachable r -> P r.
Proof. intros H0 Hs r Hr. induction Hr as [|r r' _ IH Hstep]; eauto. Qed.

Lemma step_within_ceiling (r r' : Runtime) : within_ceiling r -> step r r' -> within_ceiling r'.
Proof.
  intros Hinv Hstep. step_cases Hstep; try exact Hinv;
    unfold within_ceiling, MAX_CONNECTION_ATTEMPTS in *; simpl in *; try lia.
  destruct (String.eqb reason "LOGOUT"); simpl; lia.
Qed.

(** In every reachable state the attempt counter is between 0 and 3. *)
Theorem attempts_within_ceiling (r : Runtime) :
  reachable r -> 0 <= connectionAttempts (clientState r) <= 3.
Proof.
  apply (reachable_invariant within_ceiling).
  - unfold within_ceiling. simpl. unfold MAX_CONNECTION_ATTEMPTS. lia.
  - exact step_within_ceiling.
Qed.

Lemma attempts_within_ceiling_witness :
  reachable (after_failures 3)
  /\ 0 <= connectionAttempts (clientState (after_failures 3)) <= 3.
Proof.
  split; [apply reachable_after_failures|].
  apply (attempts_within_ceiling (after_failures 3)). apply reachable_after_failures.
Defined.





Lemma step_mirrored (r r' : Runtime) : mirrored r -> step r r' -> mirrored r'.
Proof.
  intros Hinv Hstep. step_cases Hstep; try exact Hinv;
    unfold mirrored in *; simpl in *; try discriminate; try congruence.
  destruct (String.eqb reason "LOGOUT"); simpl; discriminate.
Qed.

Lemma reachable_mirrored (r : Runtime) : reachable r -> mirrored r.
Proof.
  apply (reachable_invariant mirrored); [discriminate | exact step_mirrored].
Qed.

Lemma mirrored_read (r : Runtime) :
  mirrored r -> getCurrentQRCode r = truthy (currentQRCode r).
Proof.
  intro H. unfold getCurrentQRCode, truthy.
  destruct (currentQR (clientState r)) as [[|c q]|] eqn:Hq; try reflexivity.
  now rewrite (H _ Hq).
Qed.

(** In every reachable state [getCurrentQRCode] returns the global copy
    of the QR payload (or nothing when that is empty): the fallback to
    the global is all it ever reads. *)
Theorem getCurrentQRCode_reads_global (r : Runtime) :
  reachable r -> getCurrentQRCode r = truthy (currentQRCode r).
Proof. intro Hr. apply mirrored_read. now apply reachable_mirrored. Qed.

(** The runtime in which the first session has just shown a QR code. *)
Lemma reachable_qr_shown (qr : string) :
  reachable (on_event (Qr qr) (snd (initialize_begin quietEnv initialRuntime))).
Proof.
  eapply reachable_step.
  - eapply reachable_step; [apply reachable_initial | apply step_initialize].
  - apply step_event. simpl. discriminate.
Qed.

Lemma getCurrentQRCode_reads_global_witness :
  getCurrentQRCode (on_event (Qr "2@abc") (snd (initialize_begin quietEnv initialRuntime)))
  = Some "2@abc".
Proof.
  exact (getCurrentQRCode_reads_global _ (reachable_qr_shown "2@abc")).
Defined.











(** Once the held session is ready, initialize returns at once and
    changes nothing. *)
Theorem initialize_when_ready_is_noop (E : Env) (during : list TransportEvent)
    (opened : Completion unit) (r : Runtime) :
  client (clientState r) <> None ->
  initializeWhatsAppWebClient E during opened (on_event Ready r)
  = (Returned, on_event Ready r).
Proof.
  intro Hheld. unfold initializeWhatsAppWebClient, initialize_begin, has_client. simpl.
  destruct (client (clientState r)); [reflexivity | congruence].
Qed.

Lemma initialize_when_ready_is_noop_witness :
  initializeWhatsAppWebClient quietEnv [] refused
    (on_event Ready (snd (initialize_begin quietEnv initialRuntime)))
  = (Returned, on_event Ready (snd (initialize_begin quietEnv initialRuntime))).
Proof.
  apply (initialize_when_ready_is_noop quietEnv [] refused
           (snd (initialize_begin quietEnv initialRuntime))).
  simpl. discriminate.
Defined.



(** When the session directory is missing and cannot be created, a call
    of initialize that got past its guards throws the file-system error,
    constructs no client and opens no session, yet has counted the
    attempt. *)
Theorem initialize_without_directory (E : Env) (r : Runtime) (err : Thrown) :
  isConnecting (clientState r) = false ->
  has_client (clientState r) && isReady (clientState r) = false ->
  connectionAttempts (clientState r) < MAX_CONNECTION_ATTEMPTS ->
  existsSync E (session_path E) = false ->
  mkdirSync E (session_path E) = Throw err ->
  fst (initialize_begin E r) = Raised err
  /\ clientsMade (snd (initialize_begin E r)) = clientsMade r
  /\ client (clientState (snd (initialize_begin E r))) = None
  /\ connectionAttempts (clientState (snd (initialize_begin E r)))
     = connectionAttempts (clientState r) + 1
  /\ (forall c p, In (SessionOpened c p) (effects (snd (initialize_begin E r))) ->
                  In (SessionOpened c p) (effects r)).
Proof.
  intros Gcn Grd Gmax Gex Gmk.
  begin_cases E r.
  - destruct Hnoop as [Hc | [Hc Hr]]; [congruence|]. rewrite Hc, Hr in Grd. discriminate.
  - lia.
  - destruct Hmade as [[Hyes _] | (_ & [u Hu] & _)]; congruence.
  - rewrite Gmk in Hmk. injection Hmk as <-. simpl. repeat split.
    intros c p Hin. apply in_app_or in Hin as [Hin | Hin]; [|exact Hin].
    unfold dropped in Hin. destruct (client (clientState r)); simpl in Hin; [|contradiction].
    destruct Hin as [Hin | []]. discriminate.
Qed.

(** An environment whose session directory is missing and cannot be
    created. *)
Lemma initialize_without_directory_witness :
  fst (initialize_begin
         (mkEnv None (fun _ => false) (fun _ => Throw (ErrorObj "EACCES: permission denied"))
                (fun _ => Normal tt))
         initialRuntime)
  = Raised (ErrorObj "EACCES: permission denied").
Proof.
  apply (initialize_without_directory
           (mkEnv None (fun _ => false) (fun _ => Throw (ErrorObj "EACCES: permission denied"))
                  (fun _ => Normal tt))
           initialRuntime (ErrorObj "EACCES: permission denied")); try reflexivity.
Defined.

End ConnectionLaws.

(* ===================================================================== *)
(** ** Laws of the delivery backends *)
(* ===================================================================== *)

Module DeliveryLaws.
Import Js Normalizer Connection Delivery Frames DeliveryFacts.
Local Open Scope delivery_scope.

Lemma preserves_ret {A} (keep : Effect -> bool) (a : A) : preserves keep (ret a).
Proof. intro h. reflexivity. Qed.

Lemma preserves_throw {A} (keep : Effect -> bool) (e : Thrown) :
  preserves keep (@throw A e).
Proof. intro h. reflexivity. Qed.

Lemma preserves_lift {A} (keep : Effect -> bool) (c : Completion A) : preserves keep (lift c).
Proof. intro h. unfold lift. now destruct c. Qed.

Lemma preserves_call {A} (keep : Effect -> bool) (e : Effect)
    (answer : History -> Completion A) :
  keep e = false -> preserves keep (call e answer).
Proof. intros He h. unfold call. destruct (answer h); simpl; now rewrite He. Qed.

Lemma preserves_bind {A B} (keep : Effect -> bool) (m : M A) (k : A -> M B) :
  preserves keep m -> (forall a, preserves keep (k a)) -> preserves keep (bind m k).
Proof.
  intros Hm Hk h. unfold bind. specialize (Hm h).
  destruct (m h) as [[a|e|] h']; simpl in *; try exact Hm.
  now rewrite Hk.
Qed.

Lemma preserves_try_catch {A} (keep : Effect -> bool) (body : M A) (handler : Thrown -> M A) :
  preserves keep body -> (forall e, preserves keep (handler e)) ->
  preserves keep (try_catch body handler).
Proof.
  intros Hb Hh h. unfold try_catch. specialize (Hb h).
  destruct (body h) as [[a|e|] h']; simpl in *; try exact Hb.
  now rewrite Hh.
Qed.

Lemma preserves_find_chat (keep : Effect -> bool) (T : Transport) (c : Client)
    (chatId : string) :
  keep (GetChatById chatId) = false -> preserves keep (find_chat T c chatId).
Proof.
  intros He h. unfold find_chat. destruct (getChatById T h c chatId); simpl; now rewrite He.
Qed.

Lemma preserves_send_attachments (keep : Effect -> bool) (T : Transport) (c : Client)
    (chatId : string) (attachments : list File) :
  (forall e, is_session_effect e = true -> keep e = false) ->
  preserves keep (send_attachments T c chatId attachments).
Proof.
  intro Hk. induction attachments as [|a l IH]; simpl; [apply preserves_ret|].
  apply preserves_bind; [now apply preserves_call, Hk|]. intro media.
  apply preserves_bind; [now apply preserves_call, Hk|]. intros _. exact IH.
Qed.

Lemma preserves_webAutomation (keep : Effect -> bool) (cs : WhatsAppClientState)
    (T : Transport) (contact : Contact) (message : string)
    (attachments : option (list File)) :
  (forall e, is_session_effect e = true -> keep e = false) ->
  preserves keep (sendMessageUsingWebAutomation cs T contact message attachments).
Proof.
  intro Hk. unfold sendMessageUsingWebAutomation.
  apply preserves_try_catch; [|intro e; apply preserves_ret].
  unfold webAutomation_try.
  destruct (client cs) as [c|]; [|apply preserves_throw].
  destruct (isReady cs); [|apply preserves_throw].
  apply preserves_bind; [now apply preserves_find_chat, Hk|]. intro chat.
  apply preserves_bind; [destruct chat; now apply preserves_call, Hk|]. intros _.
  apply preserves_bind.
  { destruct attachments; [now apply preserves_send_attachments | apply preserves_ret]. }
  intros _.
  apply preserves_bind; [now apply preserves_call, Hk|]. intro now. apply preserves_ret.
Qed.

Lemma preserves_businessAPI (keep : Effect -> bool) (cfg : Config) (T : Transport)
    (contact : Contact) (message : string) (attachments : option (list File)) :
  (forall e, is_post e = true -> keep e = false) ->
  preserves keep (sendMessageUsingBusinessAPI cfg T contact message attachments).
Proof.
  intro Hk. unfold sendMessageUsingBusinessAPI.
  apply preserves_try_catch; [|intro e; apply preserves_ret].
  unfold businessAPI_try.
  destruct (falsy _ || falsy _); [apply preserves_throw|].
  apply preserves_bind; [now apply preserves_call, Hk|]. intro response.
  apply preserves_bind; [apply preserves_lift|]. intro result.
  destruct (negb (ok response)), result;
    first [apply preserves_throw | apply preserves_ret].
Qed.

(** The two backends keep to their own channel: a send through web
    automation never makes an HTTP POST, and a send through the Business
    API never touches the session (no chat lookup, no client message, no
    file read, no clock read). *)
Theorem backends_keep_apart (cfg : Config) (cs : WhatsAppClientState) (T : Transport)
    (contact : Contact) (message : string) (attachments : option (list File)) (h : History) :
  filter is_post (snd (sendMessageUsingWebAutomation cs T contact message attachments h))
  = filter is_post h
  /\ filter is_session_effect
       (snd (sendMessageUsingBusinessAPI cfg T contact message attachments h))
     = filter is_session_effect h.
Proof.
  split.
  - apply preserves_webAutomation. now intros [].
  - apply preserves_businessAPI. now intros [].
Qed.


(** With both credentials set, a send through the Business API makes
    exactly one HTTP POST, to the messages endpoint of the configured
    phone-number identifier with the bearer token, carrying the formatted
    phone number and the personalized text; its result is read off the
    provider's answer: the first message id on success, the provider's
    error message (or [Failed to send message]) on a response that is not
    ok, and the thrown error's message when the request or the parsing of
    the body fails. *)
Theorem businessAPI_posts_once (cfg : Config) (T : Transport) (contact : Contact)
    (message : string) (attachments : option (list File)) (h : History) :
  falsy (WHATSAPP_ACCESS_TOKEN cfg) = false ->
  falsy (PHONE_NUMBER_ID cfg) = false ->
  sendMessageUsingBusinessAPI cfg T contact message attachments h
  = (Ok (api_outcome (fetch T h (api_url cfg) (api_authorization cfg)
                            (api_payload contact message))),
     HttpPost (api_url cfg) (api_authorization cfg) (api_payload contact message) :: h).
Proof.
  intros Htoken Hid.
  unfold sendMessageUsingBusinessAPI, try_catch, businessAPI_try.
  rewrite Htoken, Hid. cbn [orb]. cbv beta iota.
  fold (api_url cfg) (api_authorization cfg) (api_payload contact message).
  unfold bind, call, lift, api_outcome.
  destruct (fetch T h (api_url cfg) (api_authorization cfg) (api_payload contact message))
    as [response|e]; [|reflexivity].
  destruct (json response) as [[|em fid]|e]; destruct (ok response); reflexivity.
Qed.

Lemma businessAPI_posts_once_witness :
  snd (sendMessageUsingBusinessAPI
         (mkConfig (Some "true") (Some "EAAG") (Some "106540352242922")) deafTransport
         (mkContact "c1" "555-123-4567" (Some "Ana") None) "Hi [Name]" None [])
  = [HttpPost "https://graph.facebook.com/v18.0/106540352242922/messages" "Bearer EAAG"
              (mkPayload "whatsapp" "15551234567" "text" "Hi Ana")].
Proof.
  rewrite (businessAPI_posts_once
             (mkConfig (Some "true") (Some "EAAG") (Some "106540352242922")) deafTransport
             (mkContact "c1" "555-123-4567" (Some "Ana") None) "Hi [Name]" None []);
    reflexivity.
Defined.

Section Accepting.
Variables (T : Transport) (c : Client) (chatId : string).
Hypothesis files_read : forall h path, fromFilePath T h path = Normal path.
Hypothesis messages_accepted :
  forall h content, clientSendMessage T h c chatId content = Normal tt.

Lemma send_attachments_accepted (attachments : list File) :
  forall h, send_attachments T c chatId attachments h
            = (Ok tt, (attachment_effects c chatId attachments ++ h)%list).
Proof.
  unfold attachment_effects.
  induction attachments as [|a l IH]; intro h; [reflexivity|].
  simpl send_attachments. unfold bind, call.
  rewrite files_read, messages_accepted, IH. f_equal.
  simpl flat_map. change (?x :: ?y :: ?l) with ([x; y] ++ l)%list.
  rewrite rev_app_distr. simpl rev. now rewrite <- app_assoc.
Qed.
End Accepting.

(** Over a ready session with no chat on record, when the transport
    accepts every message and reads every file, a web-automation send
    looks the chat up, sends the personalized text to the chat id built
    from the formatted phone number, then each attachment in list order
    as a message of its own, reads the clock, and returns success with a
    message id made from that clock value. *)
Theorem webAutomation_sends_text_then_attachments (cs : WhatsAppClientState) (T : Transport)
    (c : Client) (contact : Contact) (message : string) (attachments : list File)
    (h : History) :
  let chatId := (formatPhoneNumber (phone contact) ++ "@c.us")%string in
  let sent := (attachment_effects c chatId attachments
               ++ ClientSendMessage c chatId (Text (personalize message (name contact)))
               :: GetChatById chatId :: h)%list in
  client cs = Some c ->
  isReady cs = true ->
  getChatById T h c chatId = Normal None ->
  (forall h' path, fromFilePath T h' path = Normal path) ->
  (forall h' content, clientSendMessage T h' c chatId content = Normal tt) ->
  sendMessageUsingWebAutomation cs T contact message (Some attachments) h
  = (Ok (mkResult true None (Some ("web_" ++ string_of_Z (dateNow T sent)))),
     ClockRead :: sent).
Proof.
  intros chatId sent Hc Hr Hchat Hfiles Hacc.
  unfold sendMessageUsingWebAutomation, try_catch, webAutomation_try.
  rewrite Hc, Hr. fold chatId.
  unfold bind at 1. unfold find_chat. rewrite Hchat.
  unfold bind at 1. unfold call at 1. rewrite Hacc.
  unfold bind at 1.
  rewrite (send_attachments_accepted T c chatId Hfiles Hacc).
  fold sent. reflexivity.
Qed.

Lemma webAutomation_sends_text_then_attachments_witness :
  snd (sendMessageUsingWebAutomation
         (mkState (Some 0%nat) true false None None 0)
         (mkTransport (fun _ _ _ _ => Throw NonError) (fun _ _ _ => Normal None)
                      (fun _ _ _ _ => Normal tt) (fun _ _ _ => Normal tt)
                      (fun _ path => Normal path) (fun _ => 1700000000000%Z))
         (mkContact "c1" "555-123-4567" (Some "Ana") None) "Hi [Name]"
         (Some [mkFile "a.png"; mkFile "b.pdf"]) [])
  = [ClockRead;
     ClientSendMessage 0%nat "15551234567@c.us" (Media "b.pdf"); MediaFromFilePath "b.pdf";
     ClientSendMessage 0%nat "15551234567@c.us" (Media "a.png"); MediaFromFilePath "a.png";
     ClientSendMessage 0%nat "15551234567@c.us" (Text "Hi Ana");
     GetChatById "15551234567@c.us"].
Proof.
  rewrite (webAutomation_sends_text_then_attachments
             (mkState (Some 0%nat) true false None None 0)
             (mkTransport (fun _ _ _ _ => Throw NonError) (fun _ _ _ => Normal None)
                          (fun _ _ _ _ => Normal tt) (fun _ _ _ => Normal tt)
                          (fun _ path => Normal path) (fun _ => 1700000000000%Z))
             0%nat (mkContact "c1" "555-123-4567" (Some "Ana") None) "Hi [Name]"
             [mkFile "a.png"; mkFile "b.pdf"] []); reflexivity.
Defined.

(** A send whose text went out still reports failure when its first
    attachment cannot be read: the text message is in the history, the
    result carries the file error, and the remaining attachments are not
    sent. *)
Theorem webAutomation_fails_after_text_sent (cs : WhatsAppClientState) (T : Transport)
    (c : Client) (contact : Contact) (message : string) (a : File) (rest : list File)
    (err : Thrown) (h : History) :
  let chatId := (formatPhoneNumber (phone contact) ++ "@c.us")%string in
  let text := ClientSendMessage c chatId (Text (personalize message (name contact))) in
  client cs = Some c ->
  isReady cs = true ->
  getChatById T h c chatId = Normal None ->
  clientSendMessage T (GetChatById chatId :: h) c chatId
    (Text (personalize message (name contact))) = Normal tt ->
  fromFilePath T (text :: GetChatById chatId :: h) (file_name a) = Throw err ->
  sendMessageUsingWebAutomation cs T contact message (Some (a :: rest)) h
  = (Ok (failure err), MediaFromFilePath (file_name a) :: text :: GetChatById chatId :: h).
Proof.
  intros chatId text Hc Hr Hchat Htext Hfile.
  unfold sendMessageUsingWebAutomation, try_catch, webAutomation_try.
  rewrite Hc, Hr. fold chatId.
  unfold bind at 1. unfold find_chat. rewrite Hchat.
  unfold bind at 1. unfold call at 1. rewrite Htext. fold text.
  unfold bind at 1. simpl send_attachments.
  unfold bind at 1. unfold call at 1. rewrite Hfile. reflexivity.
Qed.

Lemma webAutomation_fails_after_text_sent_witness :
  fst (sendMessageUsingWebAutomation
         (mkState (Some 0%nat) true false None None 0)
         (mkTransport (fun _ _ _ _ => Throw NonError) (fun _ _ _ => Normal None)
                      (fun _ _ _ _ => Normal tt) (fun _ _ _ => Normal tt)
                      (fun _ path => Throw (ErrorObj "ENOENT: no such file"))
                      (fun _ => 0%Z))
         (mkContact "c1" "555-123-4567" (Some "Ana") None) "Hi [Name]"
         (Some [mkFile "a.png"; mkFile "b.pdf"]) [])
  = Ok (mkResult false (Some "ENOENT: no such file") None).
Proof.
  rewrite (webAutomation_fails_after_text_sent
             (mkState (Some 0%nat) true false None None 0)
             (mkTransport (fun _ _ _ _ => Throw NonError) (fun _ _ _ => Normal None)
                          (fun _ _ _ _ => Normal tt) (fun _ _ _ => Normal tt)
                          (fun _ path => Throw (ErrorObj "ENOENT: no such file"))
                          (fun _ => 0%Z))
             0%nat (mkContact "c1" "555-123-4567" (Some "Ana") None) "Hi [Name]"
             (mkFile "a.png") [mkFile "b.pdf"] (ErrorObj "ENOENT: no such file") []);
    reflexivity.
Defined.

End DeliveryLaws.

(* ===================================================================== *)
(** ** Laws of the batch dispatcher *)
(* ===================================================================== *)

Module DispatcherLaws.
Import Js Normalizer Connection Delivery Dispatcher Frames Blocks.
Import DeliveryFacts DispatcherFacts DeliveryLaws.
Local Open Scope delivery_scope.
Local Open Scope Z_scope.








Section Loop.
Variables (cfg : Config) (cs : WhatsAppClientState) (T : Transport).
Variables (message : string) (delayBetweenMessages maxRetries : Z).







End Loop.




















(** An empty contact list returns at once with no results, a summary of
    zeros and no effect, whatever the batch size, zero and negative
    sizes included. *)
Theorem empty_list_returns_at_once (fuel : nat) (cfg : Config) (cs : WhatsAppClientState)
    (T : Transport) (message : string) (batchSize delayBetweenMessages maxRetries : Z)
    (h : History) :
  sendMessagesBatch (S fuel) cfg cs T [] message batchSize delayBetweenMessages maxRetries h
  = (Ok (mkOutput [] (mkSummary 0 0 0)), h).
Proof. reflexivity. Qed.

Lemma preserves_sleep (keep : Effect -> bool) (ms : Z) :
  keep (Slept ms) = false -> preserves keep (sleep ms).
Proof. intros Hk h. unfold sleep. simpl. now rewrite Hk. Qed.

Section Untouched.
Variables (cfg : Config) (cs : WhatsAppClientState) (T : Transport).
Variables (message : string) (delayBetweenMessages maxRetries : Z).
Variable keep : Effect -> bool.
Hypothesis sleeps_apart : forall ms, keep (Slept ms) = false.
Hypothesis sends_apart :
  forall c, preserves keep (sendMessage cfg cs T c message None).

Lemma preserves_attempt (c : Contact) (v : Retry) :
  preserves keep (attempt cfg cs T c message delayBetweenMessages maxRetries v).
Proof.
  unfold attempt.
  apply preserves_bind.
  - apply preserves_try_catch; [|intro e; apply preserves_ret].
    apply preserves_bind.
    { destruct (0 <? Z.of_nat (length (acc v)));
        [now apply preserves_sleep | apply preserves_ret]. }
    intros _. apply preserves_bind; [apply sends_apart|].
    intro result. destruct (success result); apply preserves_ret.
  - intro v'. apply preserves_bind; [|intros _; apply preserves_ret].
    destruct (negb (succeeded v') && (attempts v' <? maxRetries));
      [now apply preserves_sleep | apply preserves_ret].
Qed.

Lemma preserves_retry_loop (c : Contact) (fuel : nat) :
  forall v, preserves keep
              (retry_loop fuel cfg cs T c message delayBetweenMessages maxRetries v).
Proof.
  induction fuel as [|fuel IH]; intro v; simpl;
    destruct ((attempts v <? maxRetries) && negb (succeeded v));
    try apply preserves_ret.
  - intro h. reflexivity.
  - apply preserves_bind; [apply preserves_attempt | exact IH].
Qed.

Lemma preserves_process_batch (fuel : nat) (batch : list Contact) :
  forall res, preserves keep
                (process_batch fuel cfg cs T message delayBetweenMessages maxRetries batch res).
Proof.
  induction batch as [|c rest IH]; intro res; simpl; [apply preserves_ret|].
  apply preserves_bind; [|exact IH].
  unfold process_contact. apply preserves_bind; [apply preserves_retry_loop|].
  intro v. destruct (negb (succeeded v)); apply preserves_ret.
Qed.

Lemma preserves_process_batches (fuel : nat) (count : Z) (rest : list (list Contact)) :
  forall batchIndex res,
    preserves keep
      (process_batches fuel cfg cs T message delayBetweenMessages maxRetries
         count batchIndex rest res).
Proof.
  induction rest as [|batch rest IH]; intros batchIndex res; simpl; [apply preserves_ret|].
  apply preserves_bind; [apply preserves_process_batch|]. intro res'.
  apply preserves_bind; [|intros _; apply IH].
  destruct (batchIndex <? count - 1); [now apply preserves_sleep | apply preserves_ret].
Qed.

Lemma preserves_sendMessagesBatch (fuel : nat) (contacts : list Contact) (batchSize : Z) :
  preserves keep
    (sendMessagesBatch fuel cfg cs T contacts message batchSize delayBetweenMessages
       maxRetries).
Proof.
  unfold sendMessagesBatch.
  destruct (split_loop fuel contacts batchSize 0 []); [|intro h; reflexivity].
  apply preserves_bind; [apply preserves_process_batches | intro res; apply preserves_ret].
Qed.
End Untouched.

(** A whole batch makes no HTTP POST when the web-automation backend is
    selected (the flag is anything but the string [true]) and also when
    the Business API is selected but the access token or the phone-number
    identifier is missing or empty.  This holds at every point of the
    run, whether or not it returns. *)
Theorem batch_without_post (fuel : nat) (cfg : Config) (cs : WhatsAppClientState)
    (T : Transport) (contacts : list Contact) (message : string)
    (batchSize delayBetweenMessages maxRetries : Z) (h : History) :
  USE_WHATSAPP_BUSINESS_API cfg <> Some "true"
  \/ falsy (WHATSAPP_ACCESS_TOKEN cfg) = true
  \/ falsy (PHONE_NUMBER_ID cfg) = true ->
  filter is_post
    (snd (sendMessagesBatch fuel cfg cs T contacts message batchSize delayBetweenMessages
            maxRetries h))
  = filter is_post h.
Proof.
  intro Hcase. apply preserves_sendMessagesBatch; [reflexivity|].
  intro c. unfold sendMessage.
  destruct (USE_WHATSAPP_BUSINESS_API cfg) as [v|] eqn:Huse;
    [destruct (String.eqb v "true") eqn:Hv|];
    try (apply preserves_webAutomation; now intros []).
  apply String.eqb_eq in Hv. subst v.
  destruct Hcase as [Hweb | Hmissing]; [congruence|].
  intro h0. unfold sendMessageUsingBusinessAPI, try_catch, businessAPI_try.
  assert (Hor : falsy (WHATSAPP_ACCESS_TOKEN cfg) || falsy (PHONE_NUMBER_ID cfg) = true)
    by (destruct Hmissing as [-> | ->]; [reflexivity | apply orb_true_r]).
  now rewrite Hor.
Qed.

Lemma batch_without_post_witness :
  filter is_post
    (snd (sendMessagesBatch 4 (mkConfig (Some "true") None (Some "106540352242922"))
            initialState deafTransport [ana; ben] "Hi [Name]" 50 2000 3 []))
  = filter is_post [].
Proof.
  apply (batch_without_post 4 (mkConfig (Some "true") None (Some "106540352242922"))
           initialState deafTransport [ana; ben] "Hi [Name]" 50 2000 3 []).
  right. left. reflexivity.
Defined.











(** *** Every send succeeds *)

Section Smooth.
Variables (cfg : Config) (cs : WhatsAppClientState) (T : Transport).
Variables (message : string) (delayBetweenMessages maxRetries : Z).
Hypothesis every_send_succeeds :
  forall c h, exists r h',
    sendMessage cfg cs T c message None h = (Ok r, h') /\ success r = true.
Hypothesis one_try : 1 <= maxRetries.











End Smooth.


(** *** Every send fails without touching the transport *)

Section Stalled.
Variables (cfg : Config) (cs : WhatsAppClientState) (T : Transport).
Variables (message : string) (delayBetweenMessages maxRetries : Z).
Variable outcome : MessageResult.
Hypothesis outcome_fails : success outcome = false.
Hypothesis every_send_fails :
  forall c h, sendMessage cfg cs T c message None h = (Ok outcome, h).
Hypothesis one_try : 1 <= maxRetries.







End Stalled.


End DispatcherLaws.
